(** * martingale-sim: the simulation loop, History and Result statistics

    A shallow embedding of [src/models.py], [src/strategies.py] and
    [src/games.py], and the proofs of the properties the specification
    states about them.

    Numeric model.  The structure of the code (validation, clipping, the
    loop, the dictionary, the strategies and games) and the order properties
    of its statistics are stated over exact rationals ([Q]), finite values
    compared with [Qeq] ([==]); the NaN a pandas reduction returns on too few
    observations is the explicit constructor [NaN] of [pyfloat].  What
    depends on rounding or on a NaN bet, the capital the loop accumulates
    and the interval a stored bet lies in, is stated over IEEE binary64 in
    [Binary64], the same loop on Rocq's primitive floats. *)

From Stdlib Require Import QArith Qminmax Lqa Lia ZArith Floats.
From stdpp Require Import gmap strings list.

Local Open Scope Q_scope.

(** ** Python values and exceptions *)

(** What a pandas reduction returns: a finite float or NaN. *)
Inductive pyfloat : Type :=
| Fin (q : Q)
| NaN.

(** What [decide_bet] may hand back to the loop: [None], an object that
    [float()] converts to the number [x], or an object on which [float()]
    raises (its [repr] is kept for the message). *)
Inductive pyval : Type :=
| PyNone
| PyNum (x : Q)
| PyOther (repr : string).

(** The two exceptions [Simulation.run] raises itself; each carries the name
    of the offending strategy. *)
Inductive exn : Type :=
| TypeError (strategy_name : string)
| ValueError (strategy_name : string).

Inductive result (A : Type) : Type :=
| Ok (a : A)
| Raise (e : exn).
Arguments Ok {A} a.
Arguments Raise {A} e.

(** The exception monad, through stdpp's [MRet]/[MBind] interface, so that
    [x ← m; k] reads as "run [m]; if it raised, propagate; else continue". *)
#[export] Instance result_ret : MRet result := fun _ a => Ok a.
#[export] Instance result_bind : MBind result := fun _ _ k m =>
  match m with
  | Ok a => k a
  | Raise e => Raise e
  end.

(** [bet < 0], [bet > max_bet] and [last["outcome"] == -1] on floats. *)
Definition Qlt_bool (x y : Q) : bool :=
  match x ?= y with
  | Lt => true
  | _ => false
  end.

(** ** pandas Series reductions used by the code *)

Module Series.

(** [Series.cummax()]: running maximum, position by position. *)
Fixpoint cummax_from (m : Q) (xs : list Q) : list Q :=
  match xs with
  | [] => []
  | x :: xs' => let m' := Qmax m x in m' :: cummax_from m' xs'
  end.

Definition cummax (xs : list Q) : list Q :=
  match xs with
  | [] => []
  | x :: xs' => x :: cummax_from x xs'
  end.

(** [a - b] on two Series carrying the same index. *)
Definition sub (xs ys : list Q) : list Q := zip_with Qminus xs ys.

(** [Series.max()]: NaN on an empty Series. *)
Definition max (xs : list Q) : pyfloat :=
  match xs with
  | [] => NaN
  | x :: xs' => Fin (fold_left Qmax xs' x)
  end.

(** [Series.min()]: NaN on an empty Series. *)
Definition min (xs : list Q) : pyfloat :=
  match xs with
  | [] => NaN
  | x :: xs' => Fin (fold_left Qmin xs' x)
  end.

Definition sum (xs : list Q) : Q := fold_left Qplus xs 0.

Definition count (xs : list Q) : Q := inject_Z (Z.of_nat (length xs)).

(** [Series.mean()]: NaN on an empty Series. *)
Definition mean (xs : list Q) : pyfloat :=
  match xs with
  | [] => NaN
  | _ => Fin (sum xs / count xs)
  end.

(** [Series.var()] with its default [ddof=1]: the sum of squared
    deviations from the mean over [count - ddof]; pandas returns NaN as
    soon as [count <= ddof]. *)
Definition var (xs : list Q) : pyfloat :=
  if (length xs <=? 1)%nat then NaN
  else
    let m := sum xs / count xs in
    Fin (sum (map (fun x => (x - m) * (x - m)) xs) / (count xs - 1)).

End Series.

(** ** History *)

(** One row of the [records] frame. *)
Record record : Type := mk_record {
  outcome : Q;
  bet : Q;
  total_gain : Q
}.

Module History.

Record t : Type := mk { records : list record }.

Definition init : t := mk [].

Definition add_record (self : t) (outcome bet total_gain : Q) : t :=
  mk (records self ++ [mk_record outcome bet total_gain]).

Definition is_empty (self : t) : bool :=
  match records self with
  | [] => true
  | _ => false
  end.

(** The empty Series of the source is [None]. *)
Definition last_record (self : t) : option record :=
  if negb (is_empty self) then last (records self) else None.

Definition get_capital (self : t) : list Q := map total_gain (records self).
Definition get_bets (self : t) : list Q := map bet (records self).
Definition get_outcomes (self : t) : list Q := map outcome (records self).

Definition expected_value (self : t) : pyfloat :=
  if negb (is_empty self) then Series.mean (get_outcomes self) else Fin 0.

Definition max_drawdown (self : t) : pyfloat :=
  if negb (is_empty self) then
    let cumulative_max := Series.cummax (get_capital self) in
    let drawdowns := Series.sub cumulative_max (get_capital self) in
    Series.max drawdowns
  else Fin 0.

Definition length (self : t) : nat := List.length (records self).

Definition variance_gain (self : t) : pyfloat :=
  if negb (is_empty self) then Series.var (get_capital self) else Fin 0.

Definition get_records (self : t) : list record := records self.

End History.

(** ** Result *)

Module Result.

Record t : Type := mk {
  history : list record;
  total_rounds : nat;
  final_gain : Q
}.

(** [Result.__init__]. *)
Definition init (history : list record) : t :=
  let total_rounds := List.length history in
  mk history total_rounds
     (if (0 <? total_rounds)%nat
      then match last (map total_gain history) with
           | Some g => g
           | None => 0
           end
      else 0).

(** The dictionary [compute_statistics] builds; its six keys are fixed. *)
Record stats : Type := mk_stats {
  stats_total_rounds : nat;
  stats_final_gain : Q;
  stats_average_bet : pyfloat;
  stats_max_bet : pyfloat;
  stats_min_bet : pyfloat;
  stats_max_drawdown : pyfloat
}.

Definition compute_statistics (self : t) : stats :=
  let nonempty := (0 <? total_rounds self)%nat in
  let bets := map bet (history self) in
  let gains := map total_gain (history self) in
  mk_stats
    (total_rounds self)
    (final_gain self)
    (if nonempty then Series.mean bets else Fin 0)
    (if nonempty then Series.max bets else Fin 0)
    (if nonempty then Series.min bets else Fin 0)
    (if nonempty then Series.max (Series.sub (Series.cummax gains) gains)
     else Fin 0).

End Result.

(** ** The Strategy and Game contracts *)

(** An object of a class deriving [Strategy]: its attributes are the value of
    type [S]; [decide_bet] may update them, so it returns the object as it is
    after the call. *)
Class Strategy (S : Type) : Type := {
  name : S -> string;
  decide_bet : S -> History.t -> pyval * S
}.

(** An object of a class deriving [Game]; [play_round] returns the outcome
    multiplier and the object after the call. *)
Class Game (G : Type) : Type := {
  play_round : G -> History.t -> Q * G
}.

(** An element of the [strategies] list: an object together with its class. *)
Record strategy_obj : Type := pack {
  carrier : Type;
  carrier_class :: Strategy carrier;
  self : carrier
}.
Arguments pack {carrier carrier_class} self.

(** ** src/strategies.py *)

Record FixedBettingStrategy : Type := mk_fixed {
  fixed_name : string;
  bet_amount : pyval
}.

#[export] Instance FixedBettingStrategy_Strategy : Strategy FixedBettingStrategy := {
  name s := fixed_name s;
  decide_bet s game_history := (bet_amount s, s)
}.

Record DoubleOnLossStrategy : Type := mk_double {
  double_name : string;
  base_bet : Q;
  current_bet : Q
}.

(** [DoubleOnLossStrategy.__init__]. *)
Definition DoubleOnLossStrategy_init (base_bet : Q) : DoubleOnLossStrategy :=
  mk_double "Double On Loss Strategy" base_bet base_bet.

Definition is_loss (last : option record) : bool :=
  match last with
  | Some r => Qeq_bool (outcome r) (-1)
  | None => false
  end.

(** [DoubleOnLossStrategy.decide_bet]; the [print] of the last record writes
    to the standard output only and is left out. *)
Definition DoubleOnLossStrategy_decide_bet
    (s : DoubleOnLossStrategy) (game_history : History.t)
  : pyval * DoubleOnLossStrategy :=
  let last := History.last_record game_history in
  let s' :=
    if negb (History.is_empty game_history) && is_loss last
    then mk_double (double_name s) (base_bet s) (current_bet s * 2)
    else mk_double (double_name s) (base_bet s) (base_bet s) in
  (PyNum (current_bet s'), s').

#[export] Instance DoubleOnLossStrategy_Strategy : Strategy DoubleOnLossStrategy := {
  name s := double_name s;
  decide_bet := DoubleOnLossStrategy_decide_bet
}.

(** ** src/games.py *)

(** [BenoulliProcess]: [np.random.rand()] is an oracle, the sequence [rng] of
    the draws in [0, 1) together with the number of draws made so far. *)
Record BenoulliProcess : Type := mk_bernoulli {
  p : Q;
  rng : nat -> Q;
  draws : nat
}.

#[export] Instance BenoulliProcess_Game : Game BenoulliProcess := {
  play_round g game_history :=
    (if Qlt_bool (rng g (draws g)) (p g) then 1 else -1,
     mk_bernoulli (p g) (rng g) (S (draws g)))
}.

(** [RandomWalkGame]: [position] is a Python int and [step_list] a list of
    ints; [a] and [b] are the bounds handed to the constructor (the default
    [p = 0.5] is passed explicitly); [np.random.rand()] is the same oracle as
    for [BenoulliProcess]. *)
Module RandomWalkGame.

Record t : Type := mk {
  a : Q;
  b : Q;
  p : Q;
  position : Z;
  step_list : list Z;
  rng : nat -> Q;
  draws : nat
}.

(** [RandomWalkGame.__init__]. *)
Definition init (a b p : Q) (rng : nat -> Q) : t := mk a b p 0 [] rng 0.

Definition play_round (self : t) (game_history : History.t) : Q * t :=
  let r := rng self (draws self) in
  let step := if Qlt_bool r (p self) then 1%Z else (-1)%Z in
  let step_list := step_list self ++ [step] in
  let position := (position self + step)%Z in
  (if Qle_bool (a self) (inject_Z position)
      && Qle_bool (inject_Z position) (b self)
   then 1 else -1,
   mk (a self) (b self) (p self) position step_list (rng self)
      (S (draws self))).

End RandomWalkGame.

#[export] Instance RandomWalkGame_Game : Game RandomWalkGame.t := {
  play_round := RandomWalkGame.play_round
}.

(** Modelled from the spec: the deterministic test game of the double-on-loss
    example, which is not part of the sources.  It "returns the fixed outcome
    sequence on demand": each call hands out the next outcome of the list it
    still holds (and 0 once the list is exhausted). *)
Record SequenceGame : Type := mk_sequence { pending : list Q }.

#[export] Instance SequenceGame_Game : Game SequenceGame := {
  play_round g game_history :=
    match pending g with
    | [] => (0, g)
    | o :: rest => (o, mk_sequence rest)
    end
}.

(** ** Simulation *)

Module Simulation.

Record t (G : Type) : Type := mk {
  strategies : list strategy_obj;
  game : G;
  max_bet : Q;
  start_value : Q
}.
Arguments mk {G}.
Arguments strategies {G}.
Arguments game {G}.
Arguments max_bet {G}.
Arguments start_value {G}.

(** [Simulation.__init__] with its defaults for [max_bet] and
    [start_value]. *)
Definition init {G : Type} (strategies : list strategy_obj) (game : G) : t G :=
  mk strategies game 1000 100.

(** [float(bet)] inside the [try]: any failure becomes a [TypeError]. *)
Definition to_float (strategy_name : string) (v : pyval) : result Q :=
  match v with
  | PyNum x => Ok x
  | PyNone | PyOther _ => Raise (TypeError strategy_name)
  end.

(** "Basic validation": lines 124-132 of [run]. *)
Definition validate_bet (strategy_name : string) (v : pyval) : result Q :=
  let v := match v with PyNone => PyNum 0 | _ => v end in
  bet ← to_float strategy_name v;
  if Qlt_bool bet 0 then Raise (ValueError strategy_name) else Ok bet.

(** "Clipping": lines 134-135. *)
Definition clip_bet (max_bet bet : Q) : Q :=
  if Qlt_bool max_bet bet then max_bet else bet.

(** [if stop_condition and stop_condition(history)]. *)
Definition stops (stop_condition : option (History.t -> bool))
    (history : History.t) : bool :=
  match stop_condition with
  | Some f => f history
  | None => false
  end.

Section Loop.
Context {S G : Type} `{Strategy S} `{Game G}.
Variable max_bet : Q.
Variable stop_condition : option (History.t -> bool).

(** The body of [for _ in range(rounds)] up to [add_record]. *)
Definition round (strategy : S) (game : G) (history : History.t) (gain : Q)
  : result (S * G * History.t * Q) :=
  let '(v, strategy) := decide_bet strategy history in
  bet ← validate_bet (name strategy) v;
  let bet := clip_bet max_bet bet in
  let '(outcome, game) := play_round game history in
  let gain := gain + bet * outcome in
  Ok (strategy, game, History.add_record history outcome bet gain, gain).

(** [for _ in range(rounds)], with [n] rounds left. *)
Fixpoint rounds_loop (n : nat) (strategy : S) (game : G)
    (history : History.t) (gain : Q) : result (S * G * History.t) :=
  match n with
  | O => Ok (strategy, game, history)
  | Datatypes.S n' =>
      '(strategy, game, history, gain) ← round strategy game history gain;
      if stops stop_condition history then Ok (strategy, game, history)
      else rounds_loop n' strategy game history gain
  end.
End Loop.

Section Run.
Context {G : Type} `{Game G}.

(** One iteration of [for strategy in self.strategies]: the game after
    it and the dictionary with the strategy's entry set. *)
Definition run_strategy (max_bet start_value : Q) (rounds : Z)
    (stop_condition : option (History.t -> bool))
    (strategy : strategy_obj) (game : G)
    (results : gmap string Result.t) : result (G * gmap string Result.t) :=
  let history := History.init in
  let gain := start_value in
  '(strategy', game, history) ←
    rounds_loop max_bet stop_condition (Z.to_nat rounds)
                (self strategy) game history gain;
  Ok (game, <[name strategy' := Result.init (History.get_records history)]> results).

Fixpoint run_strategies (max_bet start_value : Q) (rounds : Z)
    (stop_condition : option (History.t -> bool))
    (strategies : list strategy_obj) (game : G)
    (results : gmap string Result.t) : result (G * gmap string Result.t) :=
  match strategies with
  | [] => Ok (game, results)
  | strategy :: rest =>
      '(game, results) ←
        run_strategy max_bet start_value rounds stop_condition
                     strategy game results;
      run_strategies max_bet start_value rounds stop_condition
                     rest game results
  end.

(** [Simulation.run]: the returned dictionary, or the exception. *)
Definition run (self : t G) (rounds : Z)
    (stop_condition : option (History.t -> bool))
  : result (gmap string Result.t) :=
  '(_, results) ←
    run_strategies (max_bet self) (start_value self) rounds stop_condition
                   (strategies self) (game self) ∅;
  Ok results.
End Run.

End Simulation.

(** ** The same loop over IEEE binary64 *)

(** The capital is a Python float: [gain += bet * outcome] rounds twice per
    round, and a NaN bet passes both [bet < 0] and [bet > self.max_bet].
    Where rounding or NaN decides a property, the code is read here over
    Rocq's primitive binary64 floats: the same validation, clipping, loop and
    dictionary as in [Simulation], with [+], [*], [<] the IEEE operations. *)
Module Binary64.

(** What [decide_bet] may hand back: [None], an object that [float()]
    converts to the double [x] (NaN and the infinities included), or an
    object on which [float()] raises. *)
Inductive pyval : Type :=
| PyNone
| PyFloat (x : float)
| PyOther (repr : string).

(** One row of the [records] frame. *)
Record record : Type := mk_record {
  outcome : float;
  bet : float;
  total_gain : float
}.

Record History : Type := mk_history { records : list record }.

Definition History_init : History := mk_history [].

Definition add_record (self : History) (outcome bet total_gain : float)
  : History :=
  mk_history (records self ++ [mk_record outcome bet total_gain]).

Definition get_records (self : History) : list record := records self.

Record Result : Type := mk_result {
  history : list record;
  total_rounds : nat;
  final_gain : float
}.

(** [Result.__init__]. *)
Definition Result_init (history : list record) : Result :=
  let total_rounds := List.length history in
  mk_result history total_rounds
    (if (0 <? total_rounds)%nat
     then match last (map total_gain history) with
          | Some g => g
          | None => 0%float
          end
     else 0%float).

Class Strategy (S : Type) : Type := {
  name : S -> string;
  decide_bet : S -> History -> pyval * S
}.

Class Game (G : Type) : Type := {
  play_round : G -> History -> float * G
}.

Record strategy_obj : Type := pack {
  carrier : Type;
  carrier_class :: Strategy carrier;
  self : carrier
}.
Arguments pack {carrier carrier_class} self.

(** [FixedBettingStrategy]. *)
Record FixedBettingStrategy : Type := mk_fixed {
  fixed_name : string;
  bet_amount : pyval
}.

#[global] Instance FixedBettingStrategy_Strategy : Strategy FixedBettingStrategy := {
  name s := fixed_name s;
  decide_bet s game_history := (bet_amount s, s)
}.

(** [BenoulliProcess], with [np.random.rand()] as the oracle [rng]. *)
Record BenoulliProcess : Type := mk_bernoulli {
  p : float;
  rng : nat -> float;
  draws : nat
}.

#[global] Instance BenoulliProcess_Game : Game BenoulliProcess := {
  play_round g game_history :=
    (if (rng g (draws g) <? p g)%float then 1%float else (-1)%float,
     mk_bernoulli (p g) (rng g) (S (draws g)))
}.

Record Simulation (G : Type) : Type := mk_simulation {
  strategies : list strategy_obj;
  game : G;
  max_bet : float;
  start_value : float
}.
Arguments mk_simulation {G}.
Arguments strategies {G}.
Arguments game {G}.
Arguments max_bet {G}.
Arguments start_value {G}.

(** [float(bet)] inside the [try]: any failure becomes a [TypeError]. *)
Definition to_float (strategy_name : string) (v : pyval) : result float :=
  match v with
  | PyFloat x => Ok x
  | PyNone | PyOther _ => Raise (TypeError strategy_name)
  end.

(** Lines 124-132 of [run]. *)
Definition validate_bet (strategy_name : string) (v : pyval) : result float :=
  let v := match v with PyNone => PyFloat 0 | _ => v end in
  bet ← to_float strategy_name v;
  if (bet <? 0)%float then Raise (ValueError strategy_name) else Ok bet.

(** Lines 134-135. *)
Definition clip_bet (max_bet bet : float) : float :=
  if (max_bet <? bet)%float then max_bet else bet.

Definition stops (stop_condition : option (History -> bool))
    (history : History) : bool :=
  match stop_condition with
  | Some f => f history
  | None => false
  end.

Section Loop.
Context {S G : Type} `{Strategy S} `{Game G}.
Variable max_bet : float.
Variable stop_condition : option (History -> bool).

(** The body of [for _ in range(rounds)] up to [add_record]. *)
Definition round (strategy : S) (game : G) (history : History) (gain : float)
  : result (S * G * History * float) :=
  let '(v, strategy) := decide_bet strategy history in
  bet ← validate_bet (name strategy) v;
  let bet := clip_bet max_bet bet in
  let '(outcome, game) := play_round game history in
  let gain := (gain + bet * outcome)%float in
  Ok (strategy, game, add_record history outcome bet gain, gain).

Fixpoint rounds_loop (n : nat) (strategy : S) (game : G)
    (history : History) (gain : float) : result (S * G * History) :=
  match n with
  | O => Ok (strategy, game, history)
  | Datatypes.S n' =>
      '(strategy, game, history, gain) ← round strategy game history gain;
      if stops stop_condition history then Ok (strategy, game, history)
      else rounds_loop n' strategy game history gain
  end.
End Loop.

Section Run.
Context {G : Type} `{Game G}.

Definition run_strategy (max_bet start_value : float) (rounds : Z)
    (stop_condition : option (History -> bool))
    (strategy : strategy_obj) (game : G)
    (results : gmap string Result) : result (G * gmap string Result) :=
  let history := History_init in
  let gain := start_value in
  '(strategy', game, history) ←
    rounds_loop max_bet stop_condition (Z.to_nat rounds)
                (self strategy) game history gain;
  Ok (game, <[name strategy' := Result_init (get_records history)]> results).

Fixpoint run_strategies (max_bet start_value : float) (rounds : Z)
    (stop_condition : option (History -> bool))
    (strategies : list strategy_obj) (game : G)
    (results : gmap string Result) : result (G * gmap string Result) :=
  match strategies with
  | [] => Ok (game, results)
  | strategy :: rest =>
      '(game, results) ←
        run_strategy max_bet start_value rounds stop_condition
                     strategy game results;
      run_strategies max_bet start_value rounds stop_condition
                     rest game results
  end.

(** [Simulation.run]. *)
Definition run (self : Simulation G) (rounds : Z)
    (stop_condition : option (History -> bool))
  : result (gmap string Result) :=
  '(_, results) ←
    run_strategies (max_bet self) (start_value self) rounds stop_condition
                   (strategies self) (game self) ∅;
  Ok results.
End Run.

End Binary64.

#[global] Existing Instance Binary64.carrier_class.

(** ** The formulas of the specification *)

(** sum over the records of [bet * outcome]. *)
Definition stakes (rs : list record) : Q :=
  Series.sum (map (fun r => bet r * outcome r) rs).

(** max over k <= n of [f k]. *)
Fixpoint max_upto (f : nat -> Q) (n : nat) : Q :=
  match n with
  | O => f O
  | S n' => Qmax (max_upto f n') (f (S n'))
  end.

(** [total_gain_i], the capital recorded at position [i]. *)
Definition gain_at (h : History.t) (i : nat) : Q :=
  nth i (History.get_capital h) 0.

(** max over i of (max_{j <= i} total_gain_j - total_gain_i), for a History
    with at least one record. *)
Definition drawdown_formula (h : History.t) : Q :=
  max_upto (fun i => max_upto (gain_at h) i - gain_at h i)
           (History.length h - 1).


(** A round of the loop that is reached with the strategy returning a
    negative number: [negative_bet_within nm n s g h gain] says that, starting
    the loop with [n] rounds left in the given state, some round is reached
    in which [decide_bet] returns a number below zero, the strategy being
    named [nm] at that point. *)
Inductive negative_bet_within {S G : Type} `{Strategy S} `{Game G}
    (max_bet : Q) (stop_condition : option (History.t -> bool)) (nm : string)
  : nat -> S -> G -> History.t -> Q -> Prop :=
| negative_now n s g h gain b s' :
    decide_bet s h = (PyNum b, s') ->
    b < 0 ->
    name s' = nm ->
    negative_bet_within max_bet stop_condition nm (Datatypes.S n) s g h gain
| negative_later n s g h gain s' g' h' gain' :
    Simulation.round max_bet s g h gain = Ok (s', g', h', gain') ->
    Simulation.stops stop_condition h' = false ->
    negative_bet_within max_bet stop_condition nm n s' g' h' gain' ->
    negative_bet_within max_bet stop_condition nm (Datatypes.S n) s g h gain.

(** A History filled by successive [add_record] calls, one per row
    [(outcome, bet, total_gain)]. *)
Definition add_records (h : History.t) (rows : list (Q * Q * Q)) : History.t :=
  fold_left (fun h '(o, b, g) => History.add_record h o b g) rows h.

(** The number of records at the head of a list whose outcome is -1, and the
    number of consecutive losses a list of records ends with. *)
Fixpoint leading_losses (rs : list record) : nat :=
  match rs with
  | r :: rs' => if Qeq_bool (outcome r) (-1) then S (leading_losses rs') else O
  | [] => O
  end.

Definition trailing_losses (rs : list record) : nat := leading_losses (rev rs).

(** [b] doubled [n] times. *)
Fixpoint doubled (b : Q) (n : nat) : Q :=
  match n with
  | O => b
  | S n' => doubled b n' * 2
  end.

(** The sum of a list of steps. *)
Definition sum_steps (steps : list Z) : Z := fold_right Z.add 0%Z steps.

(** The state [RandomWalkGame] keeps consistent: the position is the sum of
    the steps taken, each step is +1 or -1, and one step was taken per draw. *)
Definition walk_consistent (g : RandomWalkGame.t) : Prop :=
  RandomWalkGame.position g = sum_steps (RandomWalkGame.step_list g) /\
  Forall (fun z => z = 1%Z \/ z = (-1)%Z) (RandomWalkGame.step_list g) /\
  length (RandomWalkGame.step_list g) = RandomWalkGame.draws g.

(** What the loop keeps true of a double-on-loss strategy created with base
    bet [b]: its current bet is [b] doubled once per loss the history before
    the last round ended with, and every record stores that bet capped. *)
Definition double_invariant (max_bet b : Q) (s : DoubleOnLossStrategy)
    (h : History.t) : Prop :=
  base_bet s = b /\
  double_name s = "Double On Loss Strategy"%string /\
  (History.records h <> [] ->
   current_bet s
   = doubled b (trailing_losses
                  (take (length (History.records h) - 1) (History.records h)))) /\
  forall i r, History.records h !! i = Some r ->
              bet r = Simulation.clip_bet max_bet
                        (doubled b (trailing_losses (take i (History.records h)))).

(** ** Concrete simulations used as examples *)

(** A strategy always betting 10 against a Bernoulli game with [p = 1.0]
    (every draw of [rand()] is below 1, so it always wins), defaults
    [max_bet = 1000], [start_value = 100]. *)
Definition always_wins : BenoulliProcess := mk_bernoulli 1 (fun _ => 0) 0.

Definition sim_fixed10 : Simulation.t BenoulliProcess :=
  Simulation.init [pack (mk_fixed "Fixed Bet Strategy" (PyNum 10))] always_wins.

(** A strategy returning -5 after one that bets 10. *)
Definition sim_negative : Simulation.t BenoulliProcess :=
  Simulation.init [pack (mk_fixed "Fixed Bet Strategy" (PyNum 10));
                   pack (mk_fixed "Minus Five" (PyNum (-5)))] always_wins.

(** The double-on-loss strategy with [base_bet = 1] against the game that
    hands out the outcomes -1, -1, 1, -1. *)
Definition sim_double : Simulation.t SequenceGame :=
  Simulation.init [pack (DoubleOnLossStrategy_init 1)]
                  (mk_sequence [-1; -1; 1; -1]).

(** The records of the three rounds of [sim_fixed10]. *)
Definition three_wins : list record :=
  [mk_record 1 10 110; mk_record 1 10 120; mk_record 1 10 130].





(** The double nearest to 0.1. *)
Definition tenth : float := 0x1.999999999999ap-4%float.

(** A strategy always betting 0.1 against a Bernoulli game with [p = 1.0]
    whose draws are all 0.0, [max_bet = 1000], [start_value = 100]. *)
Definition always_wins64 : Binary64.BenoulliProcess :=
  Binary64.mk_bernoulli 1%float (fun _ => 0%float) 0.

Definition sim_tenth : Binary64.Simulation Binary64.BenoulliProcess :=
  Binary64.mk_simulation
    [Binary64.pack (Binary64.mk_fixed "Fixed Bet Strategy" (Binary64.PyFloat tenth))]
    always_wins64 1000%float 100%float.

(** The records of three rounds of [sim_tenth]: the capital is 100.1,
    100.19999999999999 and 100.29999999999998. *)
Definition three_tenths : list Binary64.record :=
  [Binary64.mk_record 1 tenth (100 + tenth * 1);
   Binary64.mk_record 1 tenth (100 + tenth * 1 + tenth * 1);
   Binary64.mk_record 1 tenth (100 + tenth * 1 + tenth * 1 + tenth * 1)]%float.

(** A bet of 5 under a cap of -10, and a NaN bet under a cap of 1000. *)
Definition sim_negative_cap : Binary64.Simulation Binary64.BenoulliProcess :=
  Binary64.mk_simulation
    [Binary64.pack (Binary64.mk_fixed "Fixed Bet Strategy" (Binary64.PyFloat 5))]
    always_wins64 (-10)%float 100%float.

Definition sim_nan_bet : Binary64.Simulation Binary64.BenoulliProcess :=
  Binary64.mk_simulation
    [Binary64.pack (Binary64.mk_fixed "Fixed Bet Strategy" (Binary64.PyFloat nan))]
    always_wins64 1000%float 100%float.

(** ** Arithmetic helpers *)

Lemma Qlt_bool_true (x y : Q) : Qlt_bool x y = true <-> x < y.
Proof.
  unfold Qlt_bool. rewrite Qlt_alt.
  destruct (x ?= y); split; congruence.
Qed.

Lemma Qlt_bool_false (x y : Q) : Qlt_bool x y = false <-> y <= x.
Proof.
  pose proof (Qlt_bool_true x y) as Ht.
  pose proof (Qnot_lt_le x y) as Hn. pose proof (Qle_not_lt y x) as Hl.
  destruct (Qlt_bool x y); split; intros Hf; try congruence.
  - exfalso. apply (Hl Hf). by apply Ht.
  - apply Hn. intros Hlt. apply Ht in Hlt. congruence.
Qed.

Lemma sum_snoc (xs : list Q) (x : Q) :
  Series.sum (xs ++ [x]) = Series.sum xs + x.
Proof. unfold Series.sum. by rewrite fold_left_app. Qed.

Lemma stakes_snoc (rs : list record) (r : record) :
  stakes (rs ++ [r]) = stakes rs + bet r * outcome r.
Proof. unfold stakes. rewrite map_app. apply sum_snoc. Qed.



Lemma max_upto_ext (f g : nat -> Q) (n : nat) :
  (forall k, (k <= n)%nat -> f k == g k) -> max_upto f n == max_upto g n.
Proof.
  induction n as [|n IH]; intros Hfg; simpl.
  - apply Hfg. lia.
  - rewrite IH, (Hfg (S n)) by (intros; try apply Hfg; lia). reflexivity.
Qed.


Lemma max_upto_shift (x : Q) (xs : list Q) (i : nat) :
  max_upto (fun k => nth k (x :: xs) 0) (S i)
  == Qmax x (max_upto (fun k => nth k xs 0) i).
Proof.
  induction i as [|i IH].
  - simpl. reflexivity.
  - change (max_upto (fun k => nth k (x :: xs) 0) (S (S i)))
      with (Qmax (max_upto (fun k => nth k (x :: xs) 0) (S i)) (nth (S i) xs 0)).
    rewrite IH. simpl. symmetry. apply Q.max_assoc.
Qed.

(** ** The Series reductions against the formulas *)

Lemma cummax_from_length (m : Q) (xs : list Q) :
  length (Series.cummax_from m xs) = length xs.
Proof.
  revert m. induction xs as [|x xs IH]; intros m; simpl; [done|].
  by rewrite IH.
Qed.

Lemma cummax_length (xs : list Q) : length (Series.cummax xs) = length xs.
Proof. destruct xs; simpl; [done|]. by rewrite cummax_from_length. Qed.

Lemma cummax_from_nth (m : Q) (xs : list Q) (i : nat) :
  (i < length xs)%nat ->
  nth i (Series.cummax_from m xs) 0
  == Qmax m (max_upto (fun k => nth k xs 0) i).
Proof.
  revert m i. induction xs as [|x xs IH]; intros m i Hi; simpl in Hi; [lia|].
  destruct i as [|i].
  - simpl. reflexivity.
  - change (nth (S i) (Series.cummax_from m (x :: xs)) 0)
      with (nth i (Series.cummax_from (Qmax m x) xs) 0).
    rewrite IH by lia. rewrite max_upto_shift. symmetry. apply Q.max_assoc.
Qed.

Lemma cummax_nth (xs : list Q) (i : nat) :
  (i < length xs)%nat ->
  nth i (Series.cummax xs) 0 == max_upto (fun k => nth k xs 0) i.
Proof.
  destruct xs as [|x xs]; intros Hi; simpl in Hi; [lia|].
  destruct i as [|i]; [reflexivity|].
  change (nth (S i) (Series.cummax (x :: xs)) 0)
    with (nth i (Series.cummax_from x xs) 0).
  rewrite cummax_from_nth by lia. by rewrite max_upto_shift.
Qed.

Lemma sub_length (xs ys : list Q) :
  length xs = length ys -> length (Series.sub xs ys) = length ys.
Proof.
  revert ys. induction xs as [|x xs IH]; intros [|y ys] Hl; simpl in *;
    try done.
  f_equal. apply IH. lia.
Qed.

Lemma sub_nth (xs ys : list Q) (i : nat) :
  length xs = length ys -> (i < length ys)%nat ->
  nth i (Series.sub xs ys) 0 = nth i xs 0 - nth i ys 0.
Proof.
  revert ys i. induction xs as [|x xs IH]; intros [|y ys] i Hl Hi;
    simpl in *; try lia.
  destruct i as [|i]; [done|]. apply IH; lia.
Qed.

Lemma fold_max_upto (x : Q) (xs : list Q) :
  fold_left Qmax xs x == max_upto (fun k => nth k (x :: xs) 0) (length xs).
Proof.
  induction xs as [|y xs IH] using rev_ind; [reflexivity|].
  rewrite fold_left_app, length_app, Nat.add_1_r. simpl fold_left.
  change (max_upto (fun k => nth k (x :: xs ++ [y]) 0) (S (length xs)))
    with (Qmax (max_upto (fun k => nth k (x :: xs ++ [y]) 0) (length xs))
               (nth (length xs) (xs ++ [y]) 0)).
  rewrite IH.
  rewrite (max_upto_ext (fun k => nth k (x :: xs ++ [y]) 0)
                        (fun k => nth k (x :: xs) 0)).
  - rewrite app_nth2 by lia. by rewrite Nat.sub_diag.
  - intros k Hk. change (x :: xs ++ [y]) with ((x :: xs) ++ [y]).
    rewrite app_nth1 by (simpl; lia). reflexivity.
Qed.

(** On at least one record, [max_drawdown] is the maximum over the positions
    of the peak so far minus the current capital. *)
Lemma max_drawdown_nonempty (h : History.t) :
  History.is_empty h = false ->
  exists d, History.max_drawdown h = Fin d /\ d == drawdown_formula h.
Proof.
  intros Hne. unfold History.max_drawdown. rewrite Hne. simpl negb. cbv zeta.
  set (gs := History.get_capital h).
  assert (Hlen : length gs = History.length h)
    by (unfold gs, History.get_capital, History.length; apply length_map).
  assert (Hpos : (0 < length gs)%nat).
  { rewrite Hlen. unfold History.is_empty, History.length in *.
    destruct (History.records h); [done | simpl; lia]. }
  pose proof (sub_length (Series.cummax gs) gs (cummax_length gs)) as Hsl.
  destruct (Series.sub (Series.cummax gs) gs) as [|d0 ds] eqn:Hd;
    simpl in Hsl; [lia|].
  eexists. split; [reflexivity|].
  rewrite fold_max_upto. unfold drawdown_formula.
  replace (History.length h - 1)%nat with (length ds) by lia.
  apply max_upto_ext. intros k Hk. rewrite <- Hd.
  rewrite sub_nth by (rewrite ?cummax_length; lia).
  rewrite cummax_nth by lia. reflexivity.
Qed.

Lemma max_drawdown_empty (h : History.t) :
  History.is_empty h = true -> History.max_drawdown h = Fin 0.
Proof. intros He. unfold History.max_drawdown. by rewrite He. Qed.



(** ** One round, the loop, and the strategies loop *)

Lemma validate_bet_Ok_inv (nm : string) (v : pyval) (b : Q) :
  Simulation.validate_bet nm v = Ok b ->
  0 <= b /\ (v = PyNum b \/ (v = PyNone /\ b = 0)).
Proof.
  unfold Simulation.validate_bet.
  destruct v as [|x|repr]; simpl; try discriminate.
  - destruct (Qlt_bool 0 0) eqn:Hlt; [discriminate|].
    intros [= <-]. split; [apply Qle_refl | by right].
  - destruct (Qlt_bool x 0) eqn:Hlt; [discriminate|].
    intros [= <-]. split; [by apply Qlt_bool_false | by left].
Qed.

Lemma validate_bet_negative (nm : string) (b : Q) :
  b < 0 -> Simulation.validate_bet nm (PyNum b) = Raise (ValueError nm).
Proof.
  intros Hb. apply Qlt_bool_true in Hb.
  unfold Simulation.validate_bet. simpl. by rewrite Hb.
Qed.

Section LoopFacts.
Context {S G : Type} `{Strategy S} `{Game G}.
Variable max_bet : Q.
Variable stop_condition : option (History.t -> bool).

Lemma round_Ok_inv (s : S) (g : G) (h : History.t) (gain : Q)
    (s' : S) (g' : G) (h' : History.t) (gain' : Q) :
  Simulation.round max_bet s g h gain = Ok (s', g', h', gain') ->
  exists v b o,
    decide_bet s h = (v, s') /\
    Simulation.validate_bet (name s') v = Ok b /\
    play_round g h = (o, g') /\
    gain' = gain + Simulation.clip_bet max_bet b * o /\
    h' = History.add_record h o (Simulation.clip_bet max_bet b) gain'.
Proof.
  unfold Simulation.round.
  destruct (decide_bet s h) as [v s1] eqn:Hd.
  destruct (Simulation.validate_bet (name s1) v) as [b|e] eqn:Hv;
    simpl; [|discriminate].
  destruct (play_round g h) as [o g1] eqn:Hp.
  intros [= <- <- <- <-]. by exists v, b, o.
Qed.

(** A negative number returned in a round that is reached ends the loop
    with the value error. *)
Lemma rounds_loop_negative (nm : string) (n : nat) (s : S) (g : G)
    (h : History.t) (gain : Q) :
  negative_bet_within max_bet stop_condition nm n s g h gain ->
  Simulation.rounds_loop max_bet stop_condition n s g h gain
    = Raise (ValueError nm).
Proof.
  induction 1 as [n s g h gain b s' Hd Hb Hnm
                 |n s g h gain s' g' h' gain' Hr Hstop _ IH]; simpl.
  - unfold Simulation.round. rewrite Hd, Hnm.
    by rewrite validate_bet_negative.
  - rewrite Hr. simpl. by rewrite Hstop.
Qed.
End LoopFacts.

Section RunFacts.
Context {G : Type} `{Game G}.
Variables (max_bet start_value : Q) (rounds : Z).
Variable stop_condition : option (History.t -> bool).

(** Every entry of the returned dictionary was built by [Result.__init__]
    from the history of a completed loop, so a property of all such
    histories holds of all entries. *)
Lemma run_strategies_invariant (P : Result.t -> Prop) :
  (forall (st : strategy_obj) g s' g' h,
      Simulation.rounds_loop max_bet stop_condition (Z.to_nat rounds)
        (self st) g History.init start_value = Ok (s', g', h) ->
      P (Result.init (History.get_records h))) ->
  forall strats g results g' results',
    (forall nm res, results !! nm = Some res -> P res) ->
    Simulation.run_strategies max_bet start_value rounds stop_condition
      strats g results = Ok (g', results') ->
    forall nm res, results' !! nm = Some res -> P res.
Proof.
  intros Hloop strats.
  induction strats as [|st strats IH]; intros g results g' results' Hres; simpl.
  - intros [= <- <-]. exact Hres.
  - unfold Simulation.run_strategy at 1.
    destruct (Simulation.rounds_loop max_bet stop_condition (Z.to_nat rounds)
                (self st) g History.init start_value)
      as [[[s1 g1] h1]|e] eqn:Hl; simpl; [|discriminate].
    apply IH. intros nm res.
    destruct (decide (name s1 = nm)) as [->|Hne].
    + rewrite lookup_insert_eq. intros [= <-]. by eapply Hloop.
    + rewrite lookup_insert_ne by done. apply Hres.
Qed.

(** Strategies that ran to completion before a raising one do not keep the
    exception from propagating. *)
Lemma run_strategies_raise (pre post : list strategy_obj)
    (st : strategy_obj) (g g1 : G) (results results1 : gmap string Result.t)
    (e : exn) :
  Simulation.run_strategies max_bet start_value rounds stop_condition
    pre g results = Ok (g1, results1) ->
  Simulation.rounds_loop max_bet stop_condition (Z.to_nat rounds)
    (self st) g1 History.init start_value = Raise e ->
  Simulation.run_strategies max_bet start_value rounds stop_condition
    (pre ++ st :: post) g results = Raise e.
Proof.
  revert g results. induction pre as [|st0 pre IH]; intros g results; simpl.
  - intros [= <- <-] Hl. unfold Simulation.run_strategy. by rewrite Hl.
  - destruct (Simulation.run_strategy max_bet start_value rounds
                stop_condition st0 g results) as [[g0 results0]|e0];
      simpl; [|discriminate].
    apply IH.
Qed.
End RunFacts.

(** ** Comparisons of binary64 values *)

Lemma SFcompare_antisym (x y : spec_float) :
  SFcompare y x = option_map CompOpp (SFcompare x y).
Proof.
  destruct x as [sx|sx| |sx mx ex], y as [sy|sy| |sy my ey]; simpl;
    try (destruct sx); try (destruct sy); try reflexivity;
    change (PosDef.Pos.compare_cont Eq mx my) with (Pos.compare mx my);
    change (PosDef.Pos.compare_cont Eq my mx) with (Pos.compare my mx);
    rewrite (Z.compare_antisym ex ey), (Pos.compare_antisym mx my);
    by destruct (ex ?= ey)%Z, (mx ?= my)%positive.
Qed.

Lemma SFcompare_refl (x : spec_float) :
  x <> S754_nan -> SFcompare x x = Some Eq.
Proof.
  destruct x as [s|s| |s m e]; simpl; intros Hx; try done.
  - by destruct s.
  - rewrite Z.compare_refl.
    change (PosDef.Pos.compare_cont Eq m m) with (Pos.compare m m).
    rewrite Pos.compare_refl. by destruct s.
Qed.

Lemma SFcompare_None (x y : spec_float) :
  SFcompare x y = None -> x = S754_nan \/ y = S754_nan.
Proof.
  destruct x as [sx|sx| |sx mx ex], y as [sy|sy| |sy my ey]; simpl;
    try discriminate; auto.
Qed.

Lemma is_nan_false (x : float) :
  is_nan x = false <-> Prim2SF x <> S754_nan.
Proof.
  unfold is_nan. rewrite FloatAxioms.eqb_spec. unfold SFeqb.
  destruct (Prim2SF x) as [s|s| |s m e] eqn:Hx.
  - simpl. split; done.
  - simpl. destruct s; split; done.
  - simpl. split; done.
  - rewrite SFcompare_refl by done. simpl. split; done.
Qed.

(** [x < x] is false, NaN included. *)
Lemma ltb_irrefl (x : float) : (x <? x)%float = false.
Proof.
  rewrite ltb_spec. unfold SFltb.
  destruct (Prim2SF x) as [s|s| |s m e] eqn:Hx; try reflexivity.
  - by destruct s.
  - rewrite SFcompare_refl; done.
Qed.

(** [x <= y] holds of no NaN. *)
Lemma leb_not_nan (x y : float) :
  (x <=? y)%float = true -> is_nan x = false /\ is_nan y = false.
Proof.
  rewrite leb_spec, !is_nan_false. unfold SFleb.
  destruct (SFcompare (Prim2SF x) (Prim2SF y)) as [c|] eqn:Hc; [|discriminate].
  intros _. split; intros Hn; rewrite Hn in Hc;
    [done | by destruct (Prim2SF x)].
Qed.

Lemma leb_refl (x : float) : is_nan x = false -> (x <=? x)%float = true.
Proof.
  rewrite is_nan_false, leb_spec. intros Hx. unfold SFleb.
  by rewrite SFcompare_refl.
Qed.

(** Apart from NaN the order is total: not [x < y] gives [y <= x]. *)
Lemma ltb_false_leb (x y : float) :
  is_nan x = false -> is_nan y = false ->
  (x <? y)%float = false -> (y <=? x)%float = true.
Proof.
  rewrite !is_nan_false, ltb_spec, leb_spec. intros Hx Hy.
  unfold SFltb, SFleb. rewrite (SFcompare_antisym (Prim2SF x) (Prim2SF y)).
  destruct (SFcompare (Prim2SF x) (Prim2SF y)) as [[| |]|] eqn:Hc;
    simpl; try done.
  intros _. by destruct (SFcompare_None _ _ Hc).
Qed.

Lemma leb_ltb_false (x y : float) :
  (x <=? y)%float = true -> (y <? x)%float = false.
Proof.
  rewrite ltb_spec, leb_spec. unfold SFltb, SFleb.
  rewrite (SFcompare_antisym (Prim2SF x) (Prim2SF y)).
  by destruct (SFcompare (Prim2SF x) (Prim2SF y)) as [[| |]|].
Qed.

(** ** The binary64 loop *)

Lemma validate_bet64_Ok_inv (nm : string) (v : Binary64.pyval) (b : float) :
  Binary64.validate_bet nm v = Ok b ->
  (b <? 0)%float = false /\
  (v = Binary64.PyFloat b \/ (v = Binary64.PyNone /\ b = 0%float)).
Proof.
  unfold Binary64.validate_bet.
  destruct v as [|x|repr]; simpl; try discriminate.
  - replace (0 <? 0)%float with false by reflexivity.
    intros [= <-]. split; [reflexivity | by right].
  - destruct (x <? 0)%float eqn:Hlt; [discriminate|].
    intros [= <-]. split; [done | by left].
Qed.

Section Loop64Facts.
Context {S G : Type} `{Binary64.Strategy S} `{Binary64.Game G}.
Variable max_bet : float.
Variable stop_condition : option (Binary64.History -> bool).

Lemma round64_Ok_inv (s : S) (g : G) (h : Binary64.History) (gain : float)
    (s' : S) (g' : G) (h' : Binary64.History) (gain' : float) :
  Binary64.round max_bet s g h gain = Ok (s', g', h', gain') ->
  exists v b o,
    Binary64.decide_bet s h = (v, s') /\
    Binary64.validate_bet (Binary64.name s') v = Ok b /\
    Binary64.play_round g h = (o, g') /\
    gain' = (gain + Binary64.clip_bet max_bet b * o)%float /\
    h' = Binary64.add_record h o (Binary64.clip_bet max_bet b) gain'.
Proof.
  unfold Binary64.round.
  destruct (Binary64.decide_bet s h) as [v s1] eqn:Hd.
  destruct (Binary64.validate_bet (Binary64.name s1) v) as [b|e] eqn:Hv;
    simpl; [|discriminate].
  destruct (Binary64.play_round g h) as [o g1] eqn:Hp.
  intros [= <- <- <- <-]. by exists v, b, o.
Qed.

(** An invariant of history and gain that every round keeps holds of the
    history the loop ends with. *)
Lemma rounds_loop64_invariant (I : Binary64.History -> float -> Prop) :
  (forall s g h gain s' g' h' gain',
      I h gain ->
      Binary64.round max_bet s g h gain = Ok (s', g', h', gain') ->
      I h' gain') ->
  forall n s g h gain s' g' h',
    I h gain ->
    Binary64.rounds_loop max_bet stop_condition n s g h gain
      = Ok (s', g', h') ->
    exists gain', I h' gain'.
Proof.
  intros Hstep n. induction n as [|n IH]; intros s g h gain s' g' h' HI; simpl.
  - intros [= <- <- <-]. by exists gain.
  - destruct (Binary64.round max_bet s g h gain)
      as [[[[s1 g1] h1] gain1]|e] eqn:Hr; simpl; [|discriminate].
    pose proof (Hstep _ _ _ _ _ _ _ _ HI Hr) as HI1.
    destruct (Binary64.stops stop_condition h1).
    + intros [= <- <- <-]. by exists gain1.
    + by apply IH.
Qed.
End Loop64Facts.

(** Every entry of the returned dictionary is the Result of the history of a
    completed loop. *)
Lemma run_strategies64_invariant {G : Type} `{Binary64.Game G}
    (max_bet start_value : float) (rounds : Z)
    (stop_condition : option (Binary64.History -> bool))
    (P : Binary64.Result -> Prop) :
  (forall (st : Binary64.strategy_obj) g s' g' h,
      Binary64.rounds_loop max_bet stop_condition (Z.to_nat rounds)
        (Binary64.self st) g Binary64.History_init start_value
      = Ok (s', g', h) ->
      P (Binary64.Result_init (Binary64.get_records h))) ->
  forall strats g results g' results',
    (forall nm res, results !! nm = Some res -> P res) ->
    Binary64.run_strategies max_bet start_value rounds stop_condition
      strats g results = Ok (g', results') ->
    forall nm res, results' !! nm = Some res -> P res.
Proof.
  intros Hloop strats.
  induction strats as [|st strats IH]; intros g results g' results' Hres; simpl.
  - intros [= <- <-]. exact Hres.
  - unfold Binary64.run_strategy at 1.
    destruct (Binary64.rounds_loop max_bet stop_condition (Z.to_nat rounds)
                (Binary64.self st) g Binary64.History_init start_value)
      as [[[s1 g1] h1]|e] eqn:Hl; simpl; [|discriminate].
    apply IH. intros nm res.
    destruct (decide (Binary64.name s1 = nm)) as [->|Hne].
    + rewrite lookup_insert_eq. intros [= <-]. by eapply Hloop.
    + rewrite lookup_insert_ne by done. apply Hres.
Qed.


(** ** The claims *)




(** C2: when a strategy's [decide_bet] returns a negative number in a round
    the run reaches (the strategies before it having completed), [run] raises
    the value error naming that strategy; nothing is retried and no
    dictionary, hence no Result, is returned. *)
Theorem run_negative_bet_raises {G : Type} `{Game G} (sim : Simulation.t G)
    (rounds : Z) (stop_condition : option (History.t -> bool))
    (pre post : list strategy_obj) (st : strategy_obj) (g1 : G)
    (results1 : gmap string Result.t) (nm : string) :
  Simulation.strategies sim = pre ++ st :: post ->
  Simulation.run_strategies (Simulation.max_bet sim)
    (Simulation.start_value sim) rounds stop_condition pre
    (Simulation.game sim) ∅ = Ok (g1, results1) ->
  negative_bet_within (Simulation.max_bet sim) stop_condition nm
    (Z.to_nat rounds) (self st) g1 History.init (Simulation.start_value sim) ->
  Simulation.run sim rounds stop_condition = Raise (ValueError nm) /\
  forall results, Simulation.run sim rounds stop_condition <> Ok results.
Proof.
  intros Hstrats Hpre Hneg.
  assert (Hrun : Simulation.run sim rounds stop_condition
                 = Raise (ValueError nm)).
  { unfold Simulation.run. rewrite Hstrats.
    erewrite run_strategies_raise; [reflexivity | exact Hpre |].
    by apply rounds_loop_negative. }
  split; [exact Hrun|]. intros results. rewrite Hrun. discriminate.
Qed.

Lemma run_negative_bet_raises_witness :
  Simulation.run sim_negative 3 None = Raise (ValueError "Minus Five") /\
  forall results, Simulation.run sim_negative 3 None <> Ok results.
Proof.
  apply (run_negative_bet_raises sim_negative 3 None
           [pack (mk_fixed "Fixed Bet Strategy" (PyNum 10))] []
           (pack (mk_fixed "Minus Five" (PyNum (-5))))
           (mk_bernoulli 1 (fun _ => 0) 3)
           {["Fixed Bet Strategy"%string := Result.init three_wins]}).
  - reflexivity.
  - vm_compute. reflexivity.
  - apply (negative_now _ _ _ 2%nat _ _ _ _ (-5)
             (mk_fixed "Minus Five" (PyNum (-5)))); reflexivity.
Defined.

(** A Result built by [run] is [Result.__init__] of its own history. *)
Lemma run_results_built {G : Type} `{Game G} (sim : Simulation.t G)
    (rounds : Z) (stop_condition : option (History.t -> bool))
    (results : gmap string Result.t) (nm : string) (res : Result.t) :
  Simulation.run sim rounds stop_condition = Ok results ->
  results !! nm = Some res ->
  res = Result.init (Result.history res).
Proof.
  unfold Simulation.run.
  destruct (Simulation.run_strategies _ _ _ _ _ _ _)
    as [[g' results']|e] eqn:Hrun; simpl; [|discriminate].
  intros [= <-] Hres.
  eapply (run_strategies_invariant _ _ _ _
            (fun res => res = Result.init (Result.history res)));
    [| |exact Hrun|exact Hres].
  - reflexivity.
  - intros nm' res'. by rewrite lookup_empty.
Qed.

(** C3, as amended: a Result constructed from a History with zero records
    has [final_gain] 0.0, and so has every Result that [run] returns for a
    strategy that played no round, whatever the simulation's start value. *)
Theorem final_gain_zero_without_rounds :
  (forall h : History.t,
      History.length h = 0%nat ->
      Result.final_gain (Result.init (History.get_records h)) = 0) /\
  (forall (G : Type) (HG : Game G) (sim : Simulation.t G) (rounds : Z)
          (stop_condition : option (History.t -> bool))
          (results : gmap string Result.t) (nm : string) (res : Result.t),
      Simulation.run sim rounds stop_condition = Ok results ->
      results !! nm = Some res ->
      Result.history res = [] ->
      Result.final_gain res = 0).
Proof.
  split.
  - intros [rs]. unfold History.length, History.get_records. simpl.
    intros Hl. by destruct rs.
  - intros G HG sim rounds stop_condition results nm res Hrun Hres Hh.
    rewrite (run_results_built _ _ _ _ _ _ Hrun Hres), Hh. reflexivity.
Qed.

Lemma final_gain_zero_without_rounds_witness :
  Result.final_gain (Result.init (History.get_records History.init)) = 0.
Proof.
  apply (proj1 final_gain_zero_without_rounds History.init). reflexivity.
Defined.

(** C3 as stated fails: with [start_value = 100] and no round played, the
    returned Result has [final_gain] 0.0, which is not the start value. *)
Lemma final_gain_not_start_value :
  exists results res,
    Simulation.run sim_fixed10 0 None = Ok results /\
    results !! "Fixed Bet Strategy"%string = Some res /\
    Result.history res = [] /\
    ~ Result.final_gain res == Simulation.start_value sim_fixed10.
Proof.
  exists {["Fixed Bet Strategy"%string := Result.init []]}, (Result.init []).
  split; [vm_compute; reflexivity|].
  split; [apply lookup_singleton_eq|].
  split; [reflexivity|].
  vm_compute. discriminate.
Qed.

(** C4: [compute_statistics] reports as [total_rounds] the number of records
    the Result was built from, and as [final_gain] the [total_gain] of the
    last of them, or 0.0 when there is none. *)
Theorem compute_statistics_rounds_and_final_gain (history : list record) :
  Result.stats_total_rounds (Result.compute_statistics (Result.init history))
  = length history /\
  Result.stats_final_gain (Result.compute_statistics (Result.init history))
  = match last history with
    | Some r => total_gain r
    | None => 0
    end.
Proof.
  split; [reflexivity|].
  unfold Result.compute_statistics, Result.init. simpl.
  induction history as [|r rs _] using rev_ind; [reflexivity|].
  rewrite length_app, Nat.add_1_r, map_app. cbn [map].
  rewrite !last_snoc. reflexivity.
Qed.

(** C5: [max_drawdown] returns the maximum over the positions [i] of
    (the maximum over [j <= i] of [total_gain_j]) minus [total_gain_i], and
    0.0 on an empty History. *)
Theorem max_drawdown_is_max_peak_to_current (h : History.t) :
  exists d,
    History.max_drawdown h = Fin d /\
    d == (if History.is_empty h then 0 else drawdown_formula h).
Proof.
  destruct (History.is_empty h) eqn:He.
  - exists 0. split; [by apply max_drawdown_empty | reflexivity].
  - by apply max_drawdown_nonempty.
Qed.

(** The capital 99, 97, 101, 100 of the double-on-loss run: the running
    peaks are 99, 99, 101, 101 and the largest drop below a peak is 2. *)
Example max_drawdown_of_double_run :
  History.max_drawdown
    (History.mk [mk_record (-1) 1 99; mk_record (-1) 2 97;
                 mk_record 1 4 101; mk_record (-1) 1 100]) = Fin 2.
Proof. reflexivity. Qed.



(** C7: in a round where the bet that passed validation exceeds [max_bet],
    no exception is raised, the record stores exactly [max_bet] as the bet,
    and the gain is updated with [max_bet * outcome]. *)
Theorem bet_above_max_bet_is_capped {S G : Type} `{Strategy S} `{Game G}
    (max_bet : Q) (s s' : S) (g g' : G) (h : History.t) (gain : Q)
    (v : pyval) (b o : Q) :
  decide_bet s h = (v, s') ->
  Simulation.validate_bet (name s') v = Ok b ->
  max_bet < b ->
  play_round g h = (o, g') ->
  Simulation.round max_bet s g h gain
  = Ok (s', g', History.add_record h o max_bet (gain + max_bet * o),
        gain + max_bet * o).
Proof.
  intros Hd Hv Hb Hp. apply Qlt_bool_true in Hb.
  unfold Simulation.round. rewrite Hd, Hv. simpl.
  unfold Simulation.clip_bet. by rewrite Hb, Hp.
Qed.

Lemma bet_above_max_bet_is_capped_witness :
  Simulation.round 1000 (mk_fixed "Fixed Bet Strategy" (PyNum 5000))
                   always_wins History.init 100
  = Ok (mk_fixed "Fixed Bet Strategy" (PyNum 5000),
        mk_bernoulli 1 (fun _ => 0) 1,
        History.add_record History.init 1 1000 (100 + 1000 * 1),
        100 + 1000 * 1).
Proof.
  apply (bet_above_max_bet_is_capped 1000
           (mk_fixed "Fixed Bet Strategy" (PyNum 5000)) _ always_wins _
           History.init 100 (PyNum 5000) 5000 1); reflexivity.
Defined.

(** C8: [DoubleOnLossStrategy.decide_bet] returns twice its current bet when
    the last recorded outcome is -1 and its base bet otherwise (no record
    yet, or a last outcome other than -1); with [base_bet = 1] against the
    game handing out -1, -1, 1, -1 the four rounds are played with the bets
    1, 2, 4, 1. *)
Theorem double_on_loss_doubles_and_resets :
  (forall (s : DoubleOnLossStrategy) (h : History.t) (r : record),
      History.last_record h = Some r ->
      outcome r == -1 ->
      decide_bet s h
      = (PyNum (current_bet s * 2),
         mk_double (double_name s) (base_bet s) (current_bet s * 2))) /\
  (forall (s : DoubleOnLossStrategy) (h : History.t),
      (forall r, History.last_record h = Some r -> ~ outcome r == -1) ->
      decide_bet s h
      = (PyNum (base_bet s),
         mk_double (double_name s) (base_bet s) (base_bet s))) /\
  (exists results res,
      Simulation.run sim_double 4 None = Ok results /\
      results !! "Double On Loss Strategy"%string = Some res /\
      map outcome (Result.history res) = [-1; -1; 1; -1] /\
      map bet (Result.history res) = [1; 2; 4; 1]).
Proof.
  split; [|split].
  - intros s h r Hlast Hloss. simpl.
    unfold DoubleOnLossStrategy_decide_bet. rewrite Hlast.
    unfold History.last_record in Hlast.
    destruct (History.is_empty h); [discriminate|]. simpl.
    apply Qeq_bool_iff in Hloss. by rewrite Hloss.
  - intros s h Hlast. simpl. unfold DoubleOnLossStrategy_decide_bet.
    destruct (History.is_empty h) eqn:He; [reflexivity|]. simpl.
    destruct (History.last_record h) as [r|] eqn:Hl; [|reflexivity].
    simpl. destruct (Qeq_bool (outcome r) (-1)) eqn:Hq; [|reflexivity].
    exfalso. apply (Hlast r eq_refl). by apply Qeq_bool_iff.
  - exists {["Double On Loss Strategy"%string :=
               Result.init [mk_record (-1) 1 99; mk_record (-1) 2 97;
                            mk_record 1 4 101; mk_record (-1) 1 100]]}.
    eexists. split; [vm_compute; reflexivity|].
    split; [apply lookup_singleton_eq|]. split; reflexivity.
Qed.

Lemma double_on_loss_doubles_and_resets_witness :
  decide_bet (mk_double "Double On Loss Strategy" 1 2)
             (History.mk [mk_record (-1) 1 99; mk_record (-1) 2 97])
  = (PyNum (2 * 2), mk_double "Double On Loss Strategy" 1 (2 * 2)) /\
  decide_bet (mk_double "Double On Loss Strategy" 1 4)
             (History.mk [mk_record (-1) 1 99; mk_record (-1) 2 97;
                          mk_record 1 4 101])
  = (PyNum 1, mk_double "Double On Loss Strategy" 1 1).
Proof.
  split.
  - apply (proj1 double_on_loss_doubles_and_resets
             (mk_double "Double On Loss Strategy" 1 2)
             (History.mk [mk_record (-1) 1 99; mk_record (-1) 2 97])
             (mk_record (-1) 2 97)); reflexivity.
  - apply (proj1 (proj2 double_on_loss_doubles_and_resets)
             (mk_double "Double On Loss Strategy" 1 4)
             (History.mk [mk_record (-1) 1 99; mk_record (-1) 2 97;
                          mk_record 1 4 101])).
    intros r [= <-]. discriminate.
Defined.

(** C9, as amended: the bet stored by a round is the validated bet, or
    [max_bet] when the validated bet exceeds it, not the raw return value,
    and it is never above [max_bet]; when [max_bet] is non-negative the
    stored bet of every record of every returned Result is not below 0
    either, so that it lies in [0, max_bet] unless it is NaN (a NaN returned
    by the strategy passes both tests and is stored). *)
Theorem stored_bet_is_validated_and_clipped :
  (forall (S G : Type) (HS : Binary64.Strategy S) (HG : Binary64.Game G)
          (max_bet : float) (s s' : S) (g g' : G)
          (h h' : Binary64.History) (gain gain' : float),
      Binary64.round max_bet s g h gain = Ok (s', g', h', gain') ->
      exists v b r,
        Binary64.decide_bet s h = (v, s') /\
        Binary64.validate_bet (Binary64.name s') v = Ok b /\
        Binary64.records h' = Binary64.records h ++ [r] /\
        Binary64.bet r = Binary64.clip_bet max_bet b /\
        (max_bet <? Binary64.bet r)%float = false) /\
  (forall (G : Type) (HG : Binary64.Game G) (sim : Binary64.Simulation G)
          (rounds : Z) (stop_condition : option (Binary64.History -> bool))
          (results : gmap string Binary64.Result) (nm : string)
          (res : Binary64.Result) (r : Binary64.record),
      (0 <=? Binary64.max_bet sim)%float = true ->
      Binary64.run sim rounds stop_condition = Ok results ->
      results !! nm = Some res ->
      r ∈ Binary64.history res ->
      (Binary64.bet r <? 0)%float = false /\
      (Binary64.max_bet sim <? Binary64.bet r)%float = false /\
      (is_nan (Binary64.bet r) = false ->
       (0 <=? Binary64.bet r)%float = true /\
       (Binary64.bet r <=? Binary64.max_bet sim)%float = true)).
Proof.
  assert (Hclip : forall m b, (m <? Binary64.clip_bet m b)%float = false).
  { intros m b. unfold Binary64.clip_bet.
    destruct (m <? b)%float eqn:Hm; [apply ltb_irrefl | exact Hm]. }
  split.
  - intros S G HS HG max_bet s s' g g' h h' gain gain' Hr.
    apply round64_Ok_inv in Hr as (v & b & o & Hd & Hv & _ & -> & ->).
    exists v, b, (Binary64.mk_record o (Binary64.clip_bet max_bet b)
                    (gain + Binary64.clip_bet max_bet b * o)).
    repeat split; try done. apply Hclip.
  - intros G HG sim rounds stop_condition results nm res r Hcap.
    set (m := Binary64.max_bet sim) in *.
    set (ok := fun r : Binary64.record =>
                 (Binary64.bet r <? 0)%float = false /\
                 (m <? Binary64.bet r)%float = false /\
                 (is_nan (Binary64.bet r) = false ->
                  (0 <=? Binary64.bet r)%float = true /\
                  (Binary64.bet r <=? m)%float = true)).
    destruct (leb_not_nan _ _ Hcap) as [Hzero Hm].
    unfold Binary64.run.
    destruct (Binary64.run_strategies _ _ _ _ _ _ _)
      as [[g' results']|e] eqn:Hrun; simpl; [|discriminate].
    intros [= <-] Hres Hin.
    assert (Hall : Forall ok (Binary64.history res)).
    { eapply (run_strategies64_invariant _ _ _ _
                (fun res => Forall ok (Binary64.history res)));
        [| |exact Hrun|exact Hres].
      - intros st g s' g1 h Hl.
        eapply (rounds_loop64_invariant _ _
                  (fun h _ => Forall ok (Binary64.records h)))
          in Hl as [_ Hb]; [exact Hb| |by constructor].
        intros s0 g0 h0 gain0 s1 g2 h1 gain1 HI Hr.
        apply round64_Ok_inv in Hr as (v & b & o & _ & Hv & _ & -> & ->).
        apply validate_bet64_Ok_inv in Hv as [Hb _].
        apply Forall_app. split; [exact HI|].
        constructor; [|constructor]. unfold ok. simpl.
        split; [|split; [apply Hclip|]].
        + unfold Binary64.clip_bet. fold m.
          destruct (m <? b)%float; [by apply leb_ltb_false | exact Hb].
        + unfold Binary64.clip_bet. fold m.
          destruct (m <? b)%float eqn:Hmb.
          * intros _. split; [exact Hcap | by apply leb_refl].
          * intros Hnan. split; by apply ltb_false_leb.
      - intros nm' res'. by rewrite lookup_empty. }
    rewrite Forall_forall in Hall. by apply Hall.
Qed.

Lemma stored_bet_is_validated_and_clipped_witness :
  Binary64.mk_record 1 tenth (100 + tenth * 1) ∈ three_tenths /\
  (0 <=? tenth)%float = true /\ (tenth <=? 1000)%float = true.
Proof.
  assert (Hin : Binary64.mk_record 1 tenth (100 + tenth * 1) ∈ three_tenths)
    by (unfold three_tenths; apply list_elem_of_here).
  split; [exact Hin|].
  apply (proj2 stored_bet_is_validated_and_clipped
           Binary64.BenoulliProcess _ sim_tenth 3%Z None
           {["Fixed Bet Strategy"%string := Binary64.Result_init three_tenths]}
           "Fixed Bet Strategy"%string (Binary64.Result_init three_tenths)
           (Binary64.mk_record 1 tenth (100 + tenth * 1))).
  - reflexivity.
  - vm_compute. reflexivity.
  - apply lookup_singleton_eq.
  - exact Hin.
  - reflexivity.
Defined.

(** C9 as stated fails: under the cap [max_bet = -10] a bet of 5 is stored as
    -10, which is below 0; and under the cap 1000 a NaN bet is stored as it
    is, which lies in no interval. *)
Lemma stored_bet_outside_interval :
  (exists results res r,
      Binary64.run sim_negative_cap 2 None = Ok results /\
      results !! "Fixed Bet Strategy"%string = Some res /\
      r ∈ Binary64.history res /\
      Binary64.bet r = (-10)%float /\
      ~ ((0 <=? Binary64.bet r)%float = true /\
         (Binary64.bet r <=? Binary64.max_bet sim_negative_cap)%float = true)) /\
  (exists results res r,
      Binary64.run sim_nan_bet 2 None = Ok results /\
      results !! "Fixed Bet Strategy"%string = Some res /\
      r ∈ Binary64.history res /\
      is_nan (Binary64.bet r) = true /\
      ~ ((0 <=? Binary64.bet r)%float = true /\
         (Binary64.bet r <=? Binary64.max_bet sim_nan_bet)%float = true)).
Proof.
  split.
  - exists {["Fixed Bet Strategy"%string :=
               Binary64.Result_init
                 [Binary64.mk_record 1 (-10) (100 + (-10) * 1);
                  Binary64.mk_record 1 (-10) (100 + (-10) * 1 + (-10) * 1)]%float]}.
    eexists. exists (Binary64.mk_record 1 (-10) (100 + (-10) * 1))%float.
    split; [vm_compute; reflexivity|].
    split; [apply lookup_singleton_eq|].
    split; [apply list_elem_of_here|].
    split; [reflexivity|].
    intros [Hnn _]. vm_compute in Hnn. discriminate.
  - exists {["Fixed Bet Strategy"%string :=
               Binary64.Result_init
                 [Binary64.mk_record 1 nan (100 + nan * 1);
                  Binary64.mk_record 1 nan (100 + nan * 1 + nan * 1)]%float]}.
    eexists. exists (Binary64.mk_record 1 nan (100 + nan * 1))%float.
    split; [vm_compute; reflexivity|].
    split; [apply lookup_singleton_eq|].
    split; [apply list_elem_of_here|].
    split; [reflexivity|].
    intros [Hnn _]. vm_compute in Hnn. discriminate.
Qed.

(** C10: on exactly one record [variance_gain] returns NaN, which is not
    0.0; the 0.0 default is what the zero-record History returns. *)
Theorem variance_gain_one_record_is_nan :
  (forall h : History.t,
      History.length h = 1%nat ->
      History.variance_gain h = NaN /\ History.variance_gain h <> Fin 0) /\
  (forall h : History.t,
      History.length h = 0%nat -> History.variance_gain h = Fin 0) /\
  (forall h : History.t,
      (History.length h <= 1)%nat ->
      (History.variance_gain h = Fin 0 <-> History.length h = 0%nat)).
Proof.
  assert (Hone : forall h, History.length h = 1%nat ->
                           History.variance_gain h = NaN).
  { intros [[|r [|r' rs]]]; unfold History.length; simpl; try discriminate.
    reflexivity. }
  assert (Hzero : forall h, History.length h = 0%nat ->
                            History.variance_gain h = Fin 0).
  { intros [[|r rs]]; unfold History.length; simpl; [reflexivity|discriminate]. }
  split; [|split].
  - intros h Hl. rewrite (Hone h Hl). split; [reflexivity | discriminate].
  - exact Hzero.
  - intros h Hle. split.
    + intros Hv. destruct (decide (History.length h = 0%nat)) as [|Hne]; [done|].
      rewrite Hone in Hv by lia. discriminate.
    + apply Hzero.
Qed.

Lemma variance_gain_one_record_is_nan_witness :
  History.variance_gain (History.mk [mk_record 1 10 110]) = NaN /\
  History.variance_gain (History.mk [mk_record 1 10 110]) <> Fin 0.
Proof.
  apply (proj1 variance_gain_one_record_is_nan
           (History.mk [mk_record 1 10 110])).
  reflexivity.
Defined.

(** ** Further properties of the code *)

(** *** History *)

Lemma add_records_records (rows : list (Q * Q * Q)) (h : History.t) :
  History.records (add_records h rows)
  = History.records h ++ map (fun '(o, b, g) => mk_record o b g) rows.
Proof.
  revert h. induction rows as [|[[o b] g] rows IH]; intros h; simpl.
  - by rewrite app_nil_r.
  - change (add_records h ((o, b, g) :: rows))
      with (add_records (History.add_record h o b g) rows).
    rewrite IH. simpl. by rewrite <- app_assoc.
Qed.

(** X1: [add_record] appends: the new record is the last one, the History is
    no longer empty, its length grows by one and the records it already held
    stay where they were. *)
Theorem add_record_appends (h : History.t) (o b g : Q) :
  History.last_record (History.add_record h o b g) = Some (mk_record o b g) /\
  History.is_empty (History.add_record h o b g) = false /\
  History.length (History.add_record h o b g) = S (History.length h) /\
  forall i, (i < History.length h)%nat ->
            History.records (History.add_record h o b g) !! i
            = History.records h !! i.
Proof.
  unfold History.last_record, History.is_empty, History.length,
    History.add_record. cbn [History.records].
  assert (Hne : match History.records h ++ [mk_record o b g] with
                | [] => true
                | _ => false
                end = false) by (by destruct (History.records h)).
  rewrite Hne. repeat split.
  - simpl. apply last_snoc.
  - rewrite length_app. simpl. lia.
  - intros i Hi. by apply lookup_app_l.
Qed.

(** X2: [last_record] returns the empty marker exactly on a History without
    records, which is exactly when [is_empty] holds and [length] is 0;
    otherwise it returns the record at position [length - 1]. *)
Theorem last_record_empty_iff (h : History.t) :
  (History.last_record h = None <-> History.is_empty h = true) /\
  (History.is_empty h = true <-> History.length h = 0%nat) /\
  (History.is_empty h = false ->
   History.last_record h = History.records h !! (History.length h - 1)%nat).
Proof.
  unfold History.last_record, History.is_empty, History.length.
  destruct (History.records h) as [|r rs] eqn:Hr using rev_ind.
  - repeat split; try done.
  - assert (Hne : match rs ++ [r] with [] => true | _ => false end = false)
      by (by destruct rs).
    rewrite Hne. simpl negb. cbv iota. rewrite last_snoc, length_app. simpl.
    repeat split; try done; try lia.
    intros _. rewrite lookup_app_r by lia.
    by replace (length rs + 1 - 1 - length rs)%nat with O by lia.
Qed.

(** X3: after any sequence of [add_record] calls on a fresh History,
    [length] is the number of calls and [get_outcomes], [get_bets] and
    [get_capital] return the arguments of the calls in call order. *)
Theorem add_records_columns (rows : list (Q * Q * Q)) :
  History.length (add_records History.init rows) = length rows /\
  History.get_outcomes (add_records History.init rows) = map (fun x => x.1.1) rows /\
  History.get_bets (add_records History.init rows) = map (fun x => x.1.2) rows /\
  History.get_capital (add_records History.init rows) = map (fun x => x.2) rows.
Proof.
  unfold History.length, History.get_outcomes, History.get_bets,
    History.get_capital.
  rewrite add_records_records. simpl.
  rewrite length_map, !map_map.
  repeat split; apply map_ext; by intros [[o b] g].
Qed.

(** *** One round *)

(** X4: a round raises exactly in two cases: [TypeError] when the strategy
    returned something [float()] rejects, [ValueError] when it returned a
    negative number; the exception names the strategy and depends neither on
    the game nor on [max_bet]. *)
Theorem round_raises_iff {S G : Type} `{Strategy S} `{Game G}
    (max_bet : Q) (s : S) (g : G) (h : History.t) (gain : Q) (e : exn) :
  Simulation.round max_bet s g h gain = Raise e <->
  (exists repr s', decide_bet s h = (PyOther repr, s')
                   /\ e = TypeError (name s')) \/
  (exists x s', decide_bet s h = (PyNum x, s') /\ x < 0
                /\ e = ValueError (name s')).
Proof.
  unfold Simulation.round.
  destruct (decide_bet s h) as [v s1].
  destruct v as [|x|repr]; unfold Simulation.validate_bet; simpl.
  - replace (Qlt_bool 0 0) with false by reflexivity. simpl.
    destruct (play_round g h). split; [discriminate|].
    intros [(? & ? & [=] & _)|(? & ? & [=] & _)].
  - destruct (Qlt_bool x 0) eqn:Hx; simpl.
    + split.
      * intros [= <-]. right. exists x, s1.
        split; [done|]. split; [by apply Qlt_bool_true | done].
      * intros [(? & ? & [=] & _)|(x' & s' & [= -> ->] & _ & ->)]. done.
    + destruct (play_round g h). split; [discriminate|].
      intros [(? & ? & [=] & _)|(x' & s' & [= <- <-] & Hneg & _)].
      apply Qlt_bool_true in Hneg. congruence.
  - split.
    + intros [= <-]. left. by exists repr, s1.
    + intros [(? & ? & [= -> ->] & ->)|(? & ? & [=] & _)]. done.
Qed.

(** X5: a bet of [None] is played as 0.0 (capped like any other bet): the
    round does not raise, and under a non-negative [max_bet] the record
    stores the bet 0 and the capital stays what it was. *)
Theorem round_none_bet {S G : Type} `{Strategy S} `{Game G}
    (max_bet : Q) (s s' : S) (g g' : G) (h : History.t) (gain o : Q) :
  decide_bet s h = (PyNone, s') ->
  play_round g h = (o, g') ->
  exists r gain',
    Simulation.round max_bet s g h gain
    = Ok (s', g', History.mk (History.records h ++ [r]), gain') /\
    outcome r = o /\ bet r = Simulation.clip_bet max_bet 0 /\
    total_gain r = gain' /\
    (0 <= max_bet -> bet r = 0 /\ gain' == gain).
Proof.
  intros Hd Hp. unfold Simulation.round. rewrite Hd.
  unfold Simulation.validate_bet. simpl.
  replace (Qlt_bool 0 0) with false by reflexivity. simpl. rewrite Hp.
  eexists (mk_record o _ _), _. split; [reflexivity|]. simpl.
  repeat split; try reflexivity.
  - unfold Simulation.clip_bet.
    destruct (Qlt_bool max_bet 0) eqn:Hm; [|reflexivity].
    apply Qlt_bool_true in Hm. exfalso. by apply (Qlt_not_le _ _ Hm).
  - unfold Simulation.clip_bet.
    destruct (Qlt_bool max_bet 0) eqn:Hm; [|ring].
    apply Qlt_bool_true in Hm. exfalso. by apply (Qlt_not_le _ _ Hm).
Qed.

Lemma round_none_bet_witness :
  exists r gain',
    Simulation.round 1000 (mk_fixed "Fixed Bet Strategy" PyNone)
                     always_wins History.init 100
    = Ok (mk_fixed "Fixed Bet Strategy" PyNone, mk_bernoulli 1 (fun _ => 0) 1,
          History.mk (History.records History.init ++ [r]), gain') /\
    outcome r = 1 /\ bet r = Simulation.clip_bet 1000 0 /\
    total_gain r = gain' /\
    (0 <= 1000 -> bet r = 0 /\ gain' == 100).
Proof.
  apply (round_none_bet 1000 (mk_fixed "Fixed Bet Strategy" PyNone) _
           always_wins _ History.init 100 1); reflexivity.
Defined.

(** X6: the stored bet is the smaller of the validated bet and [max_bet]; a
    validated bet that does not exceed [max_bet] is stored and played
    unchanged. *)
Theorem bet_within_max_bet_unchanged {S G : Type} `{Strategy S} `{Game G}
    (max_bet : Q) (s s' : S) (g g' : G) (h : History.t) (gain : Q)
    (v : pyval) (b o : Q) :
  decide_bet s h = (v, s') ->
  Simulation.validate_bet (name s') v = Ok b ->
  play_round g h = (o, g') ->
  Simulation.clip_bet max_bet b == Qmin b max_bet /\
  (b <= max_bet ->
   Simulation.round max_bet s g h gain
   = Ok (s', g', History.add_record h o b (gain + b * o), gain + b * o)).
Proof.
  intros Hd Hv Hp. split.
  - unfold Simulation.clip_bet. destruct (Qlt_bool max_bet b) eqn:Hm.
    + apply Qlt_bool_true in Hm. symmetry. apply Q.min_r. by apply Qlt_le_weak.
    + apply Qlt_bool_false in Hm. symmetry. by apply Q.min_l.
  - intros Hle. apply Qlt_bool_false in Hle.
    unfold Simulation.round. rewrite Hd, Hv. simpl.
    unfold Simulation.clip_bet. by rewrite Hle, Hp.
Qed.

Lemma bet_within_max_bet_unchanged_witness :
  Simulation.clip_bet 1000 10 == Qmin 10 1000 /\
  (10 <= 1000 ->
   Simulation.round 1000 (mk_fixed "Fixed Bet Strategy" (PyNum 10))
                    always_wins History.init 100
   = Ok (mk_fixed "Fixed Bet Strategy" (PyNum 10),
         mk_bernoulli 1 (fun _ => 0) 1,
         History.add_record History.init 1 10 (100 + 10 * 1), 100 + 10 * 1)).
Proof.
  apply (bet_within_max_bet_unchanged 1000
           (mk_fixed "Fixed Bet Strategy" (PyNum 10)) _ always_wins _
           History.init 100 (PyNum 10) 10 1); reflexivity.
Defined.

Lemma add_record_appends_witness :
  History.last_record (History.add_record (History.mk three_wins) 1 10 140)
  = Some (mk_record 1 10 140) /\
  History.records (History.add_record (History.mk three_wins) 1 10 140) !! 2%nat
  = History.records (History.mk three_wins) !! 2%nat.
Proof.
  destruct (add_record_appends (History.mk three_wins) 1 10 140)
    as (Hlast & _ & _ & Hkeep).
  split; [exact Hlast|]. apply Hkeep. unfold History.length. simpl. lia.
Defined.

Lemma last_record_empty_iff_witness :
  History.last_record (History.mk three_wins)
  = History.records (History.mk three_wins) !! 2%nat.
Proof.
  apply (proj2 (proj2 (last_record_empty_iff (History.mk three_wins)))).
  reflexivity.
Defined.

(** *** The rounds loop *)

Section LoopShape.
Context {S G : Type} `{Strategy S} `{Game G}.
Variable max_bet : Q.
Variable stop_condition : option (History.t -> bool).

(** X7: the loop only appends to the History.  It plays at most [n] rounds
    and exactly [n] without a stop condition; it plays at least one round
    when [n > 0], because the stop condition is consulted only after a record
    was added; it ends early only on a History the stop condition accepts,
    and the stop condition rejected every History it saw before. *)
Theorem rounds_loop_shape (n : nat) (s : S) (g : G) (h : History.t) (gain : Q)
    (s' : S) (g' : G) (h' : History.t) :
  Simulation.rounds_loop max_bet stop_condition n s g h gain = Ok (s', g', h') ->
  exists tail,
    History.records h' = History.records h ++ tail /\
    (length tail <= n)%nat /\
    (stop_condition = None -> length tail = n) /\
    ((0 < n)%nat -> (0 < length tail)%nat) /\
    ((length tail < n)%nat -> Simulation.stops stop_condition h' = true) /\
    (forall m, (0 < m < length tail)%nat ->
               Simulation.stops stop_condition
                 (History.mk (History.records h ++ take m tail)) = false).
Proof.
  revert s g h gain. induction n as [|n IH]; intros s g h gain; simpl.
  - intros [= <- <- <-]. exists []. rewrite app_nil_r.
    repeat split; simpl; try done; lia.
  - destruct (Simulation.round max_bet s g h gain)
      as [[[[s1 g1] h1] gain1]|e] eqn:Hr; simpl; [|discriminate].
    apply round_Ok_inv in Hr as (v & b & o & _ & _ & _ & -> & Hh1).
    set (r := mk_record o (Simulation.clip_bet max_bet b)
                        (gain + Simulation.clip_bet max_bet b * o)) in *.
    assert (Hrec1 : h1 = History.mk (History.records h ++ [r])) by exact Hh1.
    destruct (Simulation.stops stop_condition h1) eqn:Hstop.
    + intros [= <- <- <-]. exists [r]. rewrite Hrec1 at 1. simpl.
      repeat split; try lia; try done.
      intros ->. simpl in Hstop. discriminate.
    + intros Hloop. apply IH in Hloop
        as (tail & Hrec & Hle & Hnone & _ & Hearly & Hbefore).
      exists (r :: tail). rewrite Hrec, Hrec1. simpl.
      rewrite <- app_assoc. simpl.
      repeat split; try lia; try done.
      * intros Hn. rewrite Hnone by done. done.
      * intros Hlt. apply Hearly. lia.
      * intros m [Hm0 Hm]. destruct m as [|m]; [lia|]. simpl.
        destruct m as [|m].
        -- rewrite take_0. by rewrite <- Hrec1.
        -- specialize (Hbefore (Datatypes.S m)).
           rewrite Hrec1 in Hbefore. simpl in Hbefore.
           rewrite <- app_assoc in Hbefore. simpl in Hbefore.
           apply Hbefore. lia.
Qed.
End LoopShape.

Lemma rounds_loop_shape_witness :
  exists tail,
    three_wins = [] ++ tail /\ length tail = 3%nat /\ (0 < length tail)%nat.
Proof.
  destruct (rounds_loop_shape 1000 None 3
              (mk_fixed "Fixed Bet Strategy" (PyNum 10)) always_wins
              History.init 100
              (mk_fixed "Fixed Bet Strategy" (PyNum 10))
              (mk_bernoulli 1 (fun _ => 0) 3) (History.mk three_wins))
    as (tail & Hrec & _ & Hnone & Hpos & _); [vm_compute; reflexivity|].
  exists tail. split; [exact Hrec|]. split; [by apply Hnone | apply Hpos; lia].
Defined.

(** *** The whole run *)

Lemma run_strategies_app {G : Type} `{Game G} (max_bet start_value : Q)
    (rounds : Z) (stop_condition : option (History.t -> bool))
    (pre post : list strategy_obj) (g : G) (results : gmap string Result.t) :
  Simulation.run_strategies max_bet start_value rounds stop_condition
    (pre ++ post) g results
  = match Simulation.run_strategies max_bet start_value rounds stop_condition
            pre g results with
    | Ok (g1, results1) =>
        Simulation.run_strategies max_bet start_value rounds stop_condition
          post g1 results1
    | Raise e => Raise e
    end.
Proof.
  revert g results. induction pre as [|st pre IH]; intros g results; simpl.
  - reflexivity.
  - destruct (Simulation.run_strategy max_bet start_value rounds
                stop_condition st g results) as [[g0 results0]|e]; simpl;
      [apply IH | reflexivity].
Qed.

(** X8: every returned Result counts at most [rounds] rounds (none for a
    negative [rounds]), exactly that many when no stop condition is given,
    and at least one when [rounds] is positive. *)
Theorem run_total_rounds {G : Type} `{Game G} (sim : Simulation.t G)
    (rounds : Z) (stop_condition : option (History.t -> bool))
    (results : gmap string Result.t) (nm : string) (res : Result.t) :
  Simulation.run sim rounds stop_condition = Ok results ->
  results !! nm = Some res ->
  Result.total_rounds res = length (Result.history res) /\
  (Result.total_rounds res <= Z.to_nat rounds)%nat /\
  (stop_condition = None -> Result.total_rounds res = Z.to_nat rounds) /\
  ((0 < rounds)%Z -> (0 < Result.total_rounds res)%nat).
Proof.
  unfold Simulation.run.
  destruct (Simulation.run_strategies _ _ _ _ _ _ _)
    as [[g' results']|e] eqn:Hrun; simpl; [|discriminate].
  intros [= <-] Hres.
  eapply (run_strategies_invariant _ _ _ _
            (fun res =>
               Result.total_rounds res = length (Result.history res) /\
               (Result.total_rounds res <= Z.to_nat rounds)%nat /\
               (stop_condition = None ->
                Result.total_rounds res = Z.to_nat rounds) /\
               ((0 < rounds)%Z -> (0 < Result.total_rounds res)%nat)));
    [| |exact Hrun|exact Hres].
  - intros st g s' g1 h Hl.
    apply rounds_loop_shape in Hl as (tail & Hrec & Hle & Hnone & Hpos & _).
    unfold History.get_records. rewrite Hrec. simpl.
    repeat split; try done. intros Hr. apply Hpos. lia.
  - intros nm' res'. by rewrite lookup_empty.
Qed.

Lemma run_total_rounds_witness :
  Result.total_rounds (Result.init three_wins) = Z.to_nat 3 /\
  (0 < Result.total_rounds (Result.init three_wins))%nat.
Proof.
  destruct (run_total_rounds sim_fixed10 3 None
              {["Fixed Bet Strategy"%string := Result.init three_wins]}
              "Fixed Bet Strategy" (Result.init three_wins))
    as (_ & _ & Hnone & Hpos).
  - vm_compute. reflexivity.
  - apply lookup_singleton_eq.
  - split; [by apply Hnone | apply Hpos; lia].
Defined.

(** X9: with [rounds <= 0] no strategy is asked for a bet, so the run cannot
    raise, whatever the strategies would return: every strategy gets, under
    its name, the Result of an empty history. *)
Theorem run_without_rounds {G : Type} `{Game G} (sim : Simulation.t G)
    (rounds : Z) (stop_condition : option (History.t -> bool)) :
  (rounds <= 0)%Z ->
  exists results,
    Simulation.run sim rounds stop_condition = Ok results /\
    (forall nm res, results !! nm = Some res -> res = Result.init []) /\
    (forall st, st ∈ Simulation.strategies sim ->
                results !! name (self st) = Some (Result.init [])).
Proof.
  intros Hr. unfold Simulation.run.
  assert (Hgen : forall strats g (results0 : gmap string Result.t),
    (forall nm res, results0 !! nm = Some res -> res = Result.init []) ->
    exists results,
      Simulation.run_strategies (Simulation.max_bet sim)
        (Simulation.start_value sim) rounds stop_condition strats g results0
      = Ok (g, results) /\
      (forall nm res, results !! nm = Some res -> res = Result.init []) /\
      (forall nm, is_Some (results0 !! nm) -> is_Some (results !! nm)) /\
      (forall st, st ∈ strats ->
                  results !! name (self st) = Some (Result.init []))).
  { induction strats as [|st strats IH]; intros g results0 H0; simpl.
    - exists results0. repeat split; try done. intros st Hin. inversion Hin.
    - unfold Simulation.run_strategy at 1.
      replace (Z.to_nat rounds) with O by lia. simpl.
      destruct (IH g (<[name (self st) := Result.init []]> results0))
        as (results & Hrun & Hall & Hkeep & Hin).
      { intros nm res. destruct (decide (name (self st) = nm)) as [->|Hne].
        - rewrite lookup_insert_eq. by intros [= <-].
        - rewrite lookup_insert_ne by done. apply H0. }
      exists results. split; [exact Hrun|]. split; [exact Hall|]. split.
      + intros nm Hs. apply Hkeep.
        destruct (decide (name (self st) = nm)) as [->|Hne].
        * rewrite lookup_insert_eq. by eexists.
        * by rewrite lookup_insert_ne.
      + intros st' Hst'. apply elem_of_cons in Hst' as [->|Hst'].
        * destruct (Hkeep (name (self st))) as [res Hres].
          { rewrite lookup_insert_eq. by eexists. }
          rewrite Hres. f_equal. by eapply Hall.
        * by apply Hin. }
  destruct (Hgen (Simulation.strategies sim) (Simulation.game sim) ∅)
    as (results & Hrun & Hall & _ & Hin).
  { intros nm res. by rewrite lookup_empty. }
  exists results. rewrite Hrun. simpl. done.
Qed.

Lemma run_without_rounds_witness :
  exists results,
    Simulation.run sim_negative 0 None = Ok results /\
    results !! "Minus Five"%string = Some (Result.init []).
Proof.
  destruct (run_without_rounds sim_negative 0 None) as (results & Hrun & _ & Hin);
    [lia|].
  exists results. split; [exact Hrun|].
  pose proof (Hin (@pack _ FixedBettingStrategy_Strategy
                         (mk_fixed "Minus Five" (PyNum (-5))))) as Hfive.
  apply Hfive. unfold sim_negative, Simulation.init. simpl.
  apply list_elem_of_further, list_elem_of_here.
Defined.

(** X10: the strategies are simulated in list order on one game object: the
    last strategy starts from the game as the earlier ones left it, and its
    Result is stored under its name even when an earlier strategy of the
    same name had stored one there; the other entries are kept. *)
Theorem run_last_strategy_overwrites {G : Type} `{Game G} (sim : Simulation.t G)
    (rounds : Z) (stop_condition : option (History.t -> bool))
    (pre : list strategy_obj) (st : strategy_obj) (g1 g' : G)
    (results1 : gmap string Result.t) (s' : carrier st) (h' : History.t) :
  Simulation.strategies sim = pre ++ [st] ->
  Simulation.run_strategies (Simulation.max_bet sim)
    (Simulation.start_value sim) rounds stop_condition pre
    (Simulation.game sim) ∅ = Ok (g1, results1) ->
  Simulation.rounds_loop (Simulation.max_bet sim) stop_condition
    (Z.to_nat rounds) (self st) g1 History.init (Simulation.start_value sim)
  = Ok (s', g', h') ->
  exists results,
    Simulation.run sim rounds stop_condition = Ok results /\
    results !! name s' = Some (Result.init (History.get_records h')) /\
    forall nm, nm <> name s' -> results !! nm = results1 !! nm.
Proof.
  intros Hstrats Hpre Hloop.
  exists (<[name s' := Result.init (History.get_records h')]> results1).
  split; [|split].
  - unfold Simulation.run. rewrite Hstrats, run_strategies_app, Hpre. simpl.
    unfold Simulation.run_strategy. by rewrite Hloop.
  - apply lookup_insert_eq.
  - intros nm Hne. by apply lookup_insert_ne.
Qed.

(** Two strategies named alike: one betting 10, then one betting 20. *)
Lemma run_last_strategy_overwrites_witness :
  exists results,
    Simulation.run
      (Simulation.init [pack (mk_fixed "Fixed Bet Strategy" (PyNum 10));
                        pack (mk_fixed "Fixed Bet Strategy" (PyNum 20))]
                       always_wins) 1 None = Ok results /\
    results !! "Fixed Bet Strategy"%string
    = Some (Result.init [mk_record 1 20 120]).
Proof.
  destruct (run_last_strategy_overwrites
              (Simulation.init [pack (mk_fixed "Fixed Bet Strategy" (PyNum 10));
                                pack (mk_fixed "Fixed Bet Strategy" (PyNum 20))]
                               always_wins) 1 None
              [pack (mk_fixed "Fixed Bet Strategy" (PyNum 10))]
              (pack (mk_fixed "Fixed Bet Strategy" (PyNum 20)))
              (mk_bernoulli 1 (fun _ => 0) 1) (mk_bernoulli 1 (fun _ => 0) 2)
              {["Fixed Bet Strategy"%string := Result.init [mk_record 1 10 110]]}
              (mk_fixed "Fixed Bet Strategy" (PyNum 20))
              (History.mk [mk_record 1 20 120]))
    as (results & Hrun & Hlast & _);
    [reflexivity | vm_compute; reflexivity | vm_compute; reflexivity |].
  exists results. split; [exact Hrun | exact Hlast].
Defined.

(** X11: when a strategy returns, in its first round, something [float()]
    rejects, the run raises the type error naming it: the strategies after
    it are not simulated and the Results of those before it are lost. *)
Theorem run_non_numeric_bet_raises {G : Type} `{Game G} (sim : Simulation.t G)
    (rounds : Z) (stop_condition : option (History.t -> bool))
    (pre post : list strategy_obj) (st : strategy_obj) (g1 : G)
    (results1 : gmap string Result.t) (repr : string) (s' : carrier st) :
  Simulation.strategies sim = pre ++ st :: post ->
  Simulation.run_strategies (Simulation.max_bet sim)
    (Simulation.start_value sim) rounds stop_condition pre
    (Simulation.game sim) ∅ = Ok (g1, results1) ->
  (0 < rounds)%Z ->
  decide_bet (self st) History.init = (PyOther repr, s') ->
  Simulation.run sim rounds stop_condition = Raise (TypeError (name s')).
Proof.
  intros Hstrats Hpre Hr Hd.
  unfold Simulation.run. rewrite Hstrats.
  erewrite run_strategies_raise; [reflexivity | exact Hpre |].
  destruct (Z.to_nat rounds) as [|n] eqn:Hn; [lia|]. simpl.
  unfold Simulation.round. by rewrite Hd.
Qed.

Lemma run_non_numeric_bet_raises_witness :
  Simulation.run
    (Simulation.init [pack (mk_fixed "Fixed Bet Strategy" (PyNum 10));
                      pack (mk_fixed "Words" (PyOther "ten"))]
                     always_wins) 3 None
  = Raise (TypeError "Words").
Proof.
  pose proof (run_non_numeric_bet_raises
           (Simulation.init [pack (mk_fixed "Fixed Bet Strategy" (PyNum 10));
                             pack (mk_fixed "Words" (PyOther "ten"))]
                            always_wins) 3 None
           [pack (mk_fixed "Fixed Bet Strategy" (PyNum 10))] []
           (pack (mk_fixed "Words" (PyOther "ten")))
           (mk_bernoulli 1 (fun _ => 0) 3)
           {["Fixed Bet Strategy"%string := Result.init three_wins]}
           "ten" (mk_fixed "Words" (PyOther "ten"))) as Hraise.
  apply Hraise; [reflexivity | vm_compute; reflexivity | lia | reflexivity].
Defined.

(** *** Statistics *)


(** *** Invariants over the objects the loop updates *)

(** An invariant of strategy, game, history and gain that every round keeps
    holds when the loop ends. *)
Lemma rounds_loop_invariant_state {S G : Type} `{Strategy S} `{Game G}
    (max_bet : Q) (stop_condition : option (History.t -> bool))
    (I : S -> G -> History.t -> Q -> Prop) :
  (forall s g h gain s' g' h' gain',
      I s g h gain ->
      Simulation.round max_bet s g h gain = Ok (s', g', h', gain') ->
      I s' g' h' gain') ->
  forall n s g h gain s' g' h',
    I s g h gain ->
    Simulation.rounds_loop max_bet stop_condition n s g h gain
      = Ok (s', g', h') ->
    exists gain', I s' g' h' gain'.
Proof.
  intros Hstep n. induction n as [|n IH]; intros s g h gain s' g' h' HI; simpl.
  - intros [= <- <- <-]. by exists gain.
  - destruct (Simulation.round max_bet s g h gain)
      as [[[[s1 g1] h1] gain1]|e] eqn:Hr; simpl; [|discriminate].
    pose proof (Hstep _ _ _ _ _ _ _ _ HI Hr) as HI1.
    destruct (Simulation.stops stop_condition h1).
    + intros [= <- <- <-]. by exists gain1.
    + by apply IH.
Qed.

(** A property of the game that every strategy's loop keeps, and a property
    of the Results those loops give, hold after the strategies loop. *)
Lemma run_strategies_invariant_game {G : Type} `{Game G}
    (max_bet start_value : Q) (rounds : Z)
    (stop_condition : option (History.t -> bool))
    (J : G -> Prop) (P : Result.t -> Prop) :
  (forall (st : strategy_obj) g s' g' h,
      J g ->
      Simulation.rounds_loop max_bet stop_condition (Z.to_nat rounds)
        (self st) g History.init start_value = Ok (s', g', h) ->
      J g' /\ P (Result.init (History.get_records h))) ->
  forall strats g results g' results',
    J g ->
    (forall nm res, results !! nm = Some res -> P res) ->
    Simulation.run_strategies max_bet start_value rounds stop_condition
      strats g results = Ok (g', results') ->
    J g' /\ forall nm res, results' !! nm = Some res -> P res.
Proof.
  intros Hloop strats.
  induction strats as [|st strats IH]; intros g results g' results' HJ Hres;
    simpl.
  - by intros [= <- <-].
  - unfold Simulation.run_strategy at 1.
    destruct (Simulation.rounds_loop max_bet stop_condition (Z.to_nat rounds)
                (self st) g History.init start_value)
      as [[[s1 g1] h1]|e] eqn:Hl; simpl; [|discriminate].
    destruct (Hloop st g s1 g1 h1 HJ Hl) as [HJ1 HP1].
    apply IH; [exact HJ1|]. intros nm res.
    destruct (decide (name s1 = nm)) as [->|Hne].
    + rewrite lookup_insert_eq. by intros [= <-].
    + rewrite lookup_insert_ne by done. apply Hres.
Qed.

(** *** The Bernoulli game *)

Lemma bernoulli_round_outcome {S : Type} `{Strategy S} (max_bet : Q)
    (s s' : S) (g g' : BenoulliProcess) (h h' : History.t) (gain gain' : Q) :
  Simulation.round max_bet s g h gain = Ok (s', g', h', gain') ->
  p g' = p g /\ rng g' = rng g /\ draws g' = Datatypes.S (draws g) /\
  exists r, History.records h' = History.records h ++ [r] /\
            outcome r = (if Qlt_bool (rng g (draws g)) (p g) then 1 else -1).
Proof.
  intros Hr. apply round_Ok_inv in Hr as (v & b & o & _ & _ & Hp & -> & ->).
  simpl in Hp. injection Hp as <- <-. simpl.
  repeat split. by eexists.
Qed.

(** X16: against a Bernoulli game every recorded outcome is +1 or -1; when
    every draw is below [p] (as with [p = 1.0]) all recorded outcomes are +1,
    and when no draw is below [p] (as with [p = 0.0]) all are -1, whatever
    the strategies. *)
Theorem bernoulli_outcomes (sim : Simulation.t BenoulliProcess)
    (rounds : Z) (stop_condition : option (History.t -> bool))
    (results : gmap string Result.t) (nm : string) (res : Result.t)
    (r : record) :
  Simulation.run sim rounds stop_condition = Ok results ->
  results !! nm = Some res ->
  r ∈ Result.history res ->
  (outcome r = 1 \/ outcome r = -1) /\
  ((forall k, rng (Simulation.game sim) k < p (Simulation.game sim)) ->
   outcome r = 1) /\
  ((forall k, p (Simulation.game sim) <= rng (Simulation.game sim) k) ->
   outcome r = -1).
Proof.
  unfold Simulation.run.
  destruct (Simulation.run_strategies _ _ _ _ _ _ _)
    as [[g' results']|e] eqn:Hrun; simpl; [|discriminate].
  intros [= <-] Hres Hin.
  set (g0 := Simulation.game sim) in *.
  set (ok := fun r : record =>
               (outcome r = 1 \/ outcome r = -1) /\
               ((forall k, rng g0 k < p g0) -> outcome r = 1) /\
               ((forall k, p g0 <= rng g0 k) -> outcome r = -1)).
  assert (Hall : Forall ok (Result.history res)).
  { eapply (run_strategies_invariant_game _ _ _ _
              (fun g => p g = p g0 /\ rng g = rng g0)
              (fun res => Forall ok (Result.history res)));
      [| |intros nm' res'; by rewrite lookup_empty|exact Hrun|exact Hres];
      [|done].
    intros st g s' g1 h HJ Hl.
    eapply (rounds_loop_invariant_state _ _
              (fun _ g h _ => (p g = p g0 /\ rng g = rng g0)
                              /\ Forall ok (History.records h)))
      in Hl as [_ Hend]; [exact Hend| |by split; [|constructor]].
    intros s1 g2 h1 gain1 s2 g3 h2 gain2 [[Hp Hrng] Hok] Hr.
    apply bernoulli_round_outcome in Hr
      as (Hp' & Hrng' & _ & r' & -> & Hout).
    split; [split; congruence|].
    apply Forall_app. split; [exact Hok|]. constructor; [|constructor].
    unfold ok. rewrite Hout, Hp, Hrng.
    destruct (Qlt_bool (rng g0 (draws g2)) (p g0)) eqn:Hlt.
    - split; [by left|]. split; [done|]. intros Hge.
      apply Qlt_bool_true in Hlt. exfalso.
      by apply (Qlt_not_le _ _ Hlt).
    - split; [by right|]. split; [|done]. intros Hlt'.
      apply Qlt_bool_false in Hlt. exfalso.
      by apply (Qlt_not_le _ _ (Hlt' (draws g2))). }
  rewrite Forall_forall in Hall. by apply Hall.
Qed.

Lemma bernoulli_outcomes_witness :
  outcome (mk_record 1 10 130) = 1.
Proof.
  pose proof (bernoulli_outcomes sim_fixed10 3 None
                {["Fixed Bet Strategy"%string := Result.init three_wins]}
                "Fixed Bet Strategy" (Result.init three_wins)
                (mk_record 1 10 130)) as Hb.
  destruct Hb as (_ & Hwin & _).
  - vm_compute. reflexivity.
  - apply lookup_singleton_eq.
  - unfold three_wins. simpl. repeat constructor.
  - apply Hwin. intros k. reflexivity.
Defined.

(** X17: the game object is shared by the strategies and never reset: when
    the strategies loop completes without a stop condition, a Bernoulli game
    has made one draw per round of every strategy, and its [p] is what it
    was. *)
Theorem bernoulli_draws_accumulate (max_bet start_value : Q) (rounds : Z)
    (strats : list strategy_obj) (g g' : BenoulliProcess)
    (results results' : gmap string Result.t) :
  Simulation.run_strategies max_bet start_value rounds None strats g results
  = Ok (g', results') ->
  p g' = p g /\
  draws g' = (draws g + length strats * Z.to_nat rounds)%nat.
Proof.
  revert g results. induction strats as [|st strats IH]; intros g results; simpl.
  - intros [= <- <-]. split; [done | lia].
  - unfold Simulation.run_strategy at 1.
    destruct (Simulation.rounds_loop max_bet None (Z.to_nat rounds)
                (self st) g History.init start_value)
      as [[[s1 g1] h1]|e] eqn:Hl; simpl; [|discriminate].
    intros Hrest. apply IH in Hrest as [Hp Hd].
    pose proof Hl as Hshape.
    apply rounds_loop_shape in Hshape as (tail & Hrec & _ & Hn & _).
    eapply (rounds_loop_invariant_state _ _
              (fun _ g2 h2 _ =>
                 p g2 = p g /\
                 draws g2 = (draws g + length (History.records h2))%nat))
      in Hl as [_ [Hp1 Hd1]].
    + rewrite Hp, Hp1, Hd, Hd1, Hrec. simpl. rewrite Hn by done.
      split; [done | lia].
    + intros s2 g2 h2 gain2 s3 g3 h3 gain3 [Hp2 Hd2] Hr.
      apply bernoulli_round_outcome in Hr as (Hp3 & _ & Hd3 & r & -> & _).
      rewrite Hp3, Hd3, Hd2, length_app. simpl. split; [done | lia].
    + simpl. split; [done | lia].
Qed.

Lemma bernoulli_draws_accumulate_witness :
  draws (mk_bernoulli 1 (fun _ => 0) 6) = (0 + 2 * Z.to_nat 3)%nat.
Proof.
  pose proof (bernoulli_draws_accumulate 1000 100 3
                [pack (mk_fixed "Fixed Bet Strategy" (PyNum 10));
                 pack (mk_fixed "Other" (PyNum 20))]
                always_wins (mk_bernoulli 1 (fun _ => 0) 6) ∅
                {["Fixed Bet Strategy"%string := Result.init three_wins;
                  "Other"%string :=
                    Result.init [mk_record 1 20 120; mk_record 1 20 140;
                                 mk_record 1 20 160]]}) as Hd.
  apply Hd. vm_compute. reflexivity.
Defined.

(** *** The double-on-loss strategy *)

Lemma trailing_losses_snoc (rs : list record) (r : record) :
  trailing_losses (rs ++ [r])
  = if Qeq_bool (outcome r) (-1) then Datatypes.S (trailing_losses rs) else O.
Proof. unfold trailing_losses. by rewrite rev_unit. Qed.

Lemma trailing_losses_all (rs : list record) :
  Forall (fun r => outcome r == -1) rs -> trailing_losses rs = length rs.
Proof.
  induction rs as [|r rs IH] using rev_ind; intros Hall; [done|].
  apply Forall_app in Hall as [Hrs Hr]. inversion Hr as [|? ? Hloss _]; subst.
  apply Qeq_bool_iff in Hloss.
  rewrite trailing_losses_snoc, Hloss, IH, length_app by done. simpl. lia.
Qed.

Lemma doubled_nonneg (b : Q) (n : nat) : 0 <= b -> 0 <= doubled b n.
Proof. intros Hb. induction n as [|n IH]; simpl; [done | lra]. Qed.

Lemma doubled_mono (b : Q) (n m : nat) :
  0 <= b -> (n <= m)%nat -> doubled b n <= doubled b m.
Proof.
  intros Hb Hnm. induction Hnm as [|m Hnm IH]; [apply Qle_refl|].
  simpl. pose proof (doubled_nonneg b m Hb). lra.
Qed.

Lemma double_invariant_round {G : Type} `{Game G} (max_bet b : Q)
    (s s' : DoubleOnLossStrategy) (g g' : G) (h h' : History.t)
    (gain gain' : Q) :
  double_invariant max_bet b s h ->
  Simulation.round max_bet s g h gain = Ok (s', g', h', gain') ->
  double_invariant max_bet b s' h'.
Proof.
  intros (Hbase & Hname & Hcur & Hrec) Hr.
  apply round_Ok_inv in Hr as (v & b0 & o & Hd & Hv & _ & -> & ->).
  simpl in Hd. unfold DoubleOnLossStrategy_decide_bet in Hd.
  set (rs := History.records h) in *.
  assert (Hs' : current_bet s' = doubled b (trailing_losses rs)
                /\ base_bet s' = b
                /\ double_name s' = "Double On Loss Strategy"%string
                /\ v = PyNum (current_bet s')).
  { unfold History.last_record, History.is_empty in Hd. fold rs in Hd.
    destruct rs as [|r0 rs0] eqn:Hrs using rev_ind.
    - simpl in Hd. injection Hd as <- <-. simpl. by rewrite Hbase.
    - clear IHrs0.
      assert (Hne : match rs0 ++ [r0] with [] => true | _ => false end = false)
        by (by destruct rs0).
      rewrite Hne in Hd. simpl negb in Hd. cbv iota in Hd.
      rewrite last_snoc in Hd. simpl in Hd.
      rewrite trailing_losses_snoc.
      specialize (Hcur ltac:(by destruct rs0)).
      rewrite length_app in Hcur. simpl in Hcur.
      replace (length rs0 + 1 - 1)%nat with (length rs0) in Hcur by lia.
      rewrite take_app_length in Hcur.
      destruct (Qeq_bool (outcome r0) (-1)); injection Hd as <- <-; simpl.
      + by rewrite Hcur.
      + by rewrite Hbase. }
  destruct Hs' as (Hcur' & Hbase' & Hname' & ->).
  apply validate_bet_Ok_inv in Hv as [_ [[= <-]|[[=] _]]].
  unfold double_invariant, History.add_record. cbn [History.records]. fold rs.
  split; [exact Hbase'|]. split; [exact Hname'|]. split.
  - intros _. rewrite length_app. simpl.
    replace (length rs + 1 - 1)%nat with (length rs) by lia.
    by rewrite take_app_length.
  - intros i r Hi.
    destruct (decide (i < length rs)%nat) as [Hlt|Hge].
    + rewrite lookup_app_l in Hi by done.
      rewrite take_app_le by lia. by apply Hrec.
    + rewrite lookup_app_r in Hi by lia.
      destruct (i - length rs)%nat eqn:Hi0; [|done].
      injection Hi as <-. simpl.
      replace i with (length rs) by lia.
      by rewrite take_app_length, Hcur'.
Qed.

(** X18: in a loop run with a fresh double-on-loss strategy of base bet [b],
    the bet recorded for a round is [b] doubled once for each of the
    consecutive losses recorded just before that round, capped at
    [max_bet]. *)
Theorem double_on_loss_recorded_bets {G : Type} `{Game G} (max_bet b : Q)
    (stop_condition : option (History.t -> bool)) (n : nat) (g g' : G)
    (gain : Q) (s' : DoubleOnLossStrategy) (h' : History.t)
    (i : nat) (r : record) :
  Simulation.rounds_loop max_bet stop_condition n
    (DoubleOnLossStrategy_init b) g History.init gain = Ok (s', g', h') ->
  History.records h' !! i = Some r ->
  bet r = Simulation.clip_bet max_bet
            (doubled b (trailing_losses (take i (History.records h')))).
Proof.
  intros Hl.
  eapply (rounds_loop_invariant_state _ _
            (fun s _ h _ => double_invariant max_bet b s h))
    in Hl as [_ (_ & _ & _ & Hrec)].
  - apply Hrec.
  - intros s1 g1 h1 gain1 s2 g2 h2 gain2 HI Hr.
    by eapply double_invariant_round.
  - unfold double_invariant. simpl. repeat split; try done.
Qed.

Lemma double_on_loss_recorded_bets_witness :
  bet (mk_record 1 4 101)
  = Simulation.clip_bet 1000
      (doubled 1 (trailing_losses
                    (take 2 [mk_record (-1) 1 99; mk_record (-1) 2 97;
                             mk_record 1 4 101; mk_record (-1) 1 100]))).
Proof.
  apply (double_on_loss_recorded_bets 1000 1 None 4
           (mk_sequence [-1; -1; 1; -1]) (mk_sequence []) 100
           (mk_double "Double On Loss Strategy" 1 1)
           (History.mk [mk_record (-1) 1 99; mk_record (-1) 2 97;
                        mk_record 1 4 101; mk_record (-1) 1 100]) 2%nat);
    reflexivity.
Defined.

(** X20: the martingale cycle.  When the first [k] rounds of a fresh
    double-on-loss strategy are losses and round [k] is a win, and the
    doubled bet still fits under [max_bet], the bet of round [k] is the base
    bet doubled [k] times, and the recorded bets of the rounds 0 to [k], each
    counted with its outcome, add up to exactly the base bet: the win brings
    back what the losses cost, plus [b].  (This is the sum of the recorded
    stakes as real numbers; the capital the loop records is that sum
    accumulated in binary64.) *)
Theorem double_on_loss_recovers {G : Type} `{Game G} (max_bet b : Q)
    (stop_condition : option (History.t -> bool)) (n : nat) (g g' : G)
    (start_value : Q) (s' : DoubleOnLossStrategy) (h' : History.t)
    (k : nat) (r : record) :
  Simulation.rounds_loop max_bet stop_condition n
    (DoubleOnLossStrategy_init b) g History.init start_value
  = Ok (s', g', h') ->
  0 <= b ->
  doubled b k <= max_bet ->
  (forall i ri, (i < k)%nat -> History.records h' !! i = Some ri ->
                outcome ri == -1) ->
  History.records h' !! k = Some r ->
  outcome r == 1 ->
  bet r = doubled b k /\
  stakes (take (Datatypes.S k) (History.records h')) == b.
Proof.
  intros Hl Hb Hcap Hloss Hk Hwin.
  assert (Hrec : forall i ri, History.records h' !! i = Some ri ->
            bet ri = Simulation.clip_bet max_bet
                       (doubled b (trailing_losses
                                     (take i (History.records h'))))).
  { eapply (rounds_loop_invariant_state _ _
              (fun s _ h _ => double_invariant max_bet b s h))
      in Hl as [_ (_ & _ & _ & Hrec)]; [exact Hrec| |].
    - intros s1 g1 h1 gain1 s2 g2 h2 gain2 HI Hr.
      by eapply double_invariant_round.
    - unfold double_invariant. simpl. repeat split; try done. }
  set (rs := History.records h') in *.
  assert (Hklen : (k < length rs)%nat) by (by eapply lookup_lt_Some).
  assert (Htl : forall j, (j <= k)%nat -> trailing_losses (take j rs) = j).
  { intros j Hj. rewrite trailing_losses_all.
    - rewrite length_take. lia.
    - apply Forall_forall. intros ri Hri.
      apply list_elem_of_lookup in Hri as [i Hi].
      pose proof (lookup_lt_Some _ _ _ Hi) as Hilt.
      rewrite length_take in Hilt.
      rewrite lookup_take_lt in Hi by lia. apply (Hloss i); [lia | exact Hi]. }
  assert (Hbet : forall j rj, (j <= k)%nat -> rs !! j = Some rj ->
                              bet rj = doubled b j).
  { intros j rj Hj Hrj. rewrite (Hrec j rj Hrj), Htl by done.
    unfold Simulation.clip_bet.
    replace (Qlt_bool max_bet (doubled b j)) with false; [done|].
    symmetry. apply Qlt_bool_false.
    eapply Qle_trans; [by apply doubled_mono | exact Hcap]. }
  assert (Hstakes : forall j, (j <= k)%nat ->
                              stakes (take j rs) == b - doubled b j).
  { induction j as [|j IH]; intros Hj.
    - rewrite take_0. unfold stakes, Series.sum. simpl. ring.
    - destruct (lookup_lt_is_Some_2 rs j ltac:(lia)) as [rj Hrj].
      rewrite (take_S_r _ _ _ Hrj), stakes_snoc, IH by lia.
      rewrite (Hbet j rj) by (done || lia).
      rewrite (Hloss j rj) by (done || lia). simpl. ring. }
  split; [by apply Hbet|].
  rewrite (take_S_r _ _ _ Hk), stakes_snoc, Hstakes by done.
  rewrite (Hbet k r) by done. rewrite Hwin. ring.
Qed.

Lemma double_on_loss_recovers_witness :
  bet (mk_record 1 4 101) = doubled 1 2 /\
  stakes (take 3 [mk_record (-1) 1 99; mk_record (-1) 2 97;
                  mk_record 1 4 101; mk_record (-1) 1 100]) == 1.
Proof.
  apply (double_on_loss_recovers 1000 1 None 4
           (mk_sequence [-1; -1; 1; -1]) (mk_sequence []) 100
           (mk_double "Double On Loss Strategy" 1 1)
           (History.mk [mk_record (-1) 1 99; mk_record (-1) 2 97;
                        mk_record 1 4 101; mk_record (-1) 1 100]) 2%nat).
  - reflexivity.
  - discriminate.
  - discriminate.
  - intros [|[|i]] ri Hi Hri; simpl in Hri; try lia;
      injection Hri as <-; reflexivity.
  - reflexivity.
  - reflexivity.
Defined.

(** *** The fixed-bet strategy *)



(** *** The random-walk game *)

Lemma sum_steps_snoc (steps : list Z) (z : Z) :
  sum_steps (steps ++ [z]) = (sum_steps steps + z)%Z.
Proof.
  unfold sum_steps. induction steps as [|x steps IH]; simpl; [lia|].
  rewrite IH. lia.
Qed.

Lemma sum_steps_bound (steps : list Z) :
  Forall (fun z => z = 1%Z \/ z = (-1)%Z) steps ->
  (Z.abs (sum_steps steps) <= Z.of_nat (length steps))%Z.
Proof.
  unfold sum_steps. induction 1 as [|z steps Hz _ IH]; simpl; [lia|].
  destruct Hz as [-> | ->]; lia.
Qed.

Lemma walk_round {S : Type} `{Strategy S} (max_bet : Q)
    (s s' : S) (g g' : RandomWalkGame.t) (h h' : History.t) (gain gain' : Q) :
  Simulation.round max_bet s g h gain = Ok (s', g', h', gain') ->
  RandomWalkGame.a g' = RandomWalkGame.a g /\
  RandomWalkGame.b g' = RandomWalkGame.b g /\
  RandomWalkGame.draws g' = Datatypes.S (RandomWalkGame.draws g) /\
  exists step r,
    (step = 1%Z \/ step = (-1)%Z) /\
    RandomWalkGame.position g' = (RandomWalkGame.position g + step)%Z /\
    RandomWalkGame.step_list g' = RandomWalkGame.step_list g ++ [step] /\
    History.records h' = History.records h ++ [r] /\
    outcome r
    = (if Qle_bool (RandomWalkGame.a g) (inject_Z (RandomWalkGame.position g'))
          && Qle_bool (inject_Z (RandomWalkGame.position g')) (RandomWalkGame.b g)
       then 1 else -1).
Proof.
  intros Hr. apply round_Ok_inv in Hr as (v & b0 & o & _ & _ & Hp & -> & ->).
  simpl in Hp. unfold RandomWalkGame.play_round in Hp.
  injection Hp as <- <-. simpl. repeat split.
  eexists _, _. split; [|repeat split].
  destruct (Qlt_bool _ _); [by left | by right].
Qed.

Lemma walk_consistent_round {S : Type} `{Strategy S} (max_bet : Q)
    (s s' : S) (g g' : RandomWalkGame.t) (h h' : History.t) (gain gain' : Q) :
  walk_consistent g ->
  Simulation.round max_bet s g h gain = Ok (s', g', h', gain') ->
  walk_consistent g'.
Proof.
  intros (Hpos & Hsteps & Hlen) Hr.
  apply walk_round in Hr
    as (_ & _ & Hd & step & r & Hstep & Hpos' & Hlist & _).
  unfold walk_consistent. rewrite Hpos', Hlist, Hd, sum_steps_snoc, Hpos.
  split; [done|]. split.
  - apply Forall_app. split; [done | by constructor].
  - rewrite length_app. simpl. lia.
Qed.

(** X22: the random-walk game keeps its position across rounds and across
    strategies: after the strategies loop the position is still the sum of
    all the steps taken, one step of +1 or -1 per draw, so it is never
    further from 0 than the number of draws; the band is unchanged. *)
Theorem random_walk_consistent (max_bet start_value : Q) (rounds : Z)
    (stop_condition : option (History.t -> bool))
    (strats : list strategy_obj) (g g' : RandomWalkGame.t)
    (results results' : gmap string Result.t) :
  Simulation.run_strategies max_bet start_value rounds stop_condition
    strats g results = Ok (g', results') ->
  walk_consistent g ->
  walk_consistent g' /\
  (Z.abs (RandomWalkGame.position g') <= Z.of_nat (RandomWalkGame.draws g'))%Z /\
  RandomWalkGame.a g' = RandomWalkGame.a g /\
  RandomWalkGame.b g' = RandomWalkGame.b g.
Proof.
  intros Hrun Hg.
  eapply (run_strategies_invariant_game _ _ _ _
            (fun g1 => walk_consistent g1 /\
                       RandomWalkGame.a g1 = RandomWalkGame.a g /\
                       RandomWalkGame.b g1 = RandomWalkGame.b g)
            (fun _ => True))
    in Hrun as [(Hc & Ha & Hb) _]; [| |done|done].
  - split; [exact Hc|]. split; [|done].
    destruct Hc as (Hpos & Hsteps & Hlen).
    rewrite Hpos, <- Hlen. by apply sum_steps_bound.
  - intros st g1 s' g2 h HJ Hl. split; [|done].
    eapply (rounds_loop_invariant_state _ _
              (fun _ g3 _ _ => walk_consistent g3 /\
                               RandomWalkGame.a g3 = RandomWalkGame.a g /\
                               RandomWalkGame.b g3 = RandomWalkGame.b g))
      in Hl as [_ Hend]; [exact Hend| |exact HJ].
    intros s1 g3 h1 gain1 s2 g4 h2 gain2 (Hc & Ha & Hb) Hr.
    split;
      [exact (walk_consistent_round (S := carrier st) _ _ _ _ _ _ _ _ _ Hc Hr)|].
    apply (walk_round (S := carrier st)) in Hr as (Ha' & Hb' & _).
    split; congruence.
Qed.

Lemma random_walk_consistent_witness :
  exists g' results',
    Simulation.run_strategies 1000 100 2 None
      [pack (mk_fixed "Fixed Bet Strategy" (PyNum 10))]
      (RandomWalkGame.init (-1) 1 (1 # 2) (fun _ => 0)) ∅ = Ok (g', results') /\
    RandomWalkGame.position g' = 2%Z /\
    (Z.abs (RandomWalkGame.position g') <= Z.of_nat (RandomWalkGame.draws g'))%Z.
Proof.
  eexists _, _. split; [vm_compute; reflexivity|]. split; [reflexivity|].
  eapply (random_walk_consistent 1000 100 2 None
            [pack (mk_fixed "Fixed Bet Strategy" (PyNum 10))]
            (RandomWalkGame.init (-1) 1 (1 # 2) (fun _ => 0)) _ ∅).
  - vm_compute. reflexivity.
  - unfold walk_consistent. simpl. repeat split. constructor.
Defined.

(** X23: against a random-walk game every recorded outcome is +1 or -1, and
    with an empty band ([b < a]) every recorded outcome is -1, whatever the
    draws and the strategies. *)
Theorem random_walk_outcomes (sim : Simulation.t RandomWalkGame.t)
    (rounds : Z) (stop_condition : option (History.t -> bool))
    (results : gmap string Result.t) (nm : string) (res : Result.t)
    (r : record) :
  Simulation.run sim rounds stop_condition = Ok results ->
  results !! nm = Some res ->
  r ∈ Result.history res ->
  (outcome r = 1 \/ outcome r = -1) /\
  (RandomWalkGame.b (Simulation.game sim) < RandomWalkGame.a (Simulation.game sim)
   -> outcome r = -1).
Proof.
  unfold Simulation.run.
  destruct (Simulation.run_strategies _ _ _ _ _ _ _)
    as [[g' results']|e] eqn:Hrun; simpl; [|discriminate].
  intros [= <-] Hres Hin.
  set (g0 := Simulation.game sim) in *.
  set (ok := fun r : record =>
               (outcome r = 1 \/ outcome r = -1) /\
               (RandomWalkGame.b g0 < RandomWalkGame.a g0 -> outcome r = -1)).
  assert (Hall : Forall ok (Result.history res)).
  { eapply (run_strategies_invariant_game _ _ _ _
              (fun g => RandomWalkGame.a g = RandomWalkGame.a g0 /\
                        RandomWalkGame.b g = RandomWalkGame.b g0)
              (fun res => Forall ok (Result.history res)));
      [| |intros nm' res'; by rewrite lookup_empty|exact Hrun|exact Hres];
      [|done].
    intros st g s' g1 h HJ Hl.
    eapply (rounds_loop_invariant_state _ _
              (fun _ g h _ => (RandomWalkGame.a g = RandomWalkGame.a g0 /\
                               RandomWalkGame.b g = RandomWalkGame.b g0)
                              /\ Forall ok (History.records h)))
      in Hl as [_ Hend]; [exact Hend| |by split; [|constructor]].
    intros s1 g2 h1 gain1 s2 g3 h2 gain2 [[Ha Hb] Hok] Hr.
    apply (walk_round (S := carrier st)) in Hr
      as (Ha' & Hb' & _ & step & r' & _ & _ & _ & -> & Hout).
    split; [split; congruence|].
    apply Forall_app. split; [exact Hok|]. constructor; [|constructor].
    unfold ok. rewrite Hout, Ha, Hb.
    destruct (Qle_bool (RandomWalkGame.a g0) _) eqn:Hlo;
      destruct (Qle_bool _ (RandomWalkGame.b g0)) eqn:Hhi; simpl;
      (split; [by (left + right)|]); try done.
    intros Hempty. exfalso.
    apply Qle_bool_iff in Hlo, Hhi.
    apply (Qlt_not_le _ _ Hempty). by eapply Qle_trans. }
  rewrite Forall_forall in Hall. by apply Hall.
Qed.

Lemma random_walk_outcomes_witness :
  outcome (mk_record (-1) 10 90) = -1.
Proof.
  pose proof (random_walk_outcomes
                (Simulation.init [pack (mk_fixed "Fixed Bet Strategy" (PyNum 10))]
                                 (RandomWalkGame.init 1 (-1) (1 # 2) (fun _ => 0)))
                1 None
                {["Fixed Bet Strategy"%string := Result.init [mk_record (-1) 10 90]]}
                "Fixed Bet Strategy" (Result.init [mk_record (-1) 10 90])
                (mk_record (-1) 10 90)) as Hw.
  destruct Hw as (_ & Hempty).
  - vm_compute. reflexivity.
  - apply lookup_singleton_eq.
  - simpl. apply list_elem_of_here.
  - apply Hempty. reflexivity.
Defined.

(** X24: as long as the band contains every position the walk can have
    reached, every round is a win: when all integers within
    [|position| + n] of 0 lie in [a, b], the [n] rounds of a loop record the
    outcome +1 only. *)
Theorem random_walk_wide_band {S : Type} `{Strategy S} (max_bet : Q)
    (stop_condition : option (History.t -> bool)) (n : nat) (s s' : S)
    (g g' : RandomWalkGame.t) (h' : History.t) (start_value : Q) (r : record) :
  Simulation.rounds_loop max_bet stop_condition n s g History.init start_value
  = Ok (s', g', h') ->
  (forall z : Z,
      (Z.abs z <= Z.abs (RandomWalkGame.position g) + Z.of_nat n)%Z ->
      RandomWalkGame.a g <= inject_Z z /\ inject_Z z <= RandomWalkGame.b g) ->
  r ∈ History.records h' ->
  outcome r = 1.
Proof.
  intros Hl Hband Hin.
  pose proof Hl as Hshape.
  apply rounds_loop_shape in Hshape as (tail & Hrec & Hle & _).
  simpl in Hrec.
  set (far := fun k : nat =>
                forall z : Z,
                  (Z.abs z <= Z.abs (RandomWalkGame.position g) + Z.of_nat k)%Z ->
                  RandomWalkGame.a g <= inject_Z z /\
                  inject_Z z <= RandomWalkGame.b g).
  eapply (rounds_loop_invariant_state _ _
            (fun _ g1 h1 _ =>
               RandomWalkGame.a g1 = RandomWalkGame.a g /\
               RandomWalkGame.b g1 = RandomWalkGame.b g /\
               (Z.abs (RandomWalkGame.position g1)
                <= Z.abs (RandomWalkGame.position g)
                   + Z.of_nat (length (History.records h1)))%Z /\
               forall i ri, History.records h1 !! i = Some ri ->
                            far (Datatypes.S i) -> outcome ri = 1))
    in Hl as [_ (_ & _ & _ & Hwins)].
  - apply list_elem_of_lookup in Hin as [i Hi].
    apply (Hwins i r Hi). intros z Hz. apply Hband.
    pose proof (lookup_lt_Some _ _ _ Hi) as Hilt.
    rewrite Hrec in Hilt. lia.
  - intros s1 g1 h1 gain1 s2 g2 h2 gain2 (Ha & Hb & Hpos & Hwins) Hr.
    apply walk_round in Hr
      as (Ha' & Hb' & _ & step & r' & Hstep & Hpos' & _ & -> & Hout).
    split; [congruence|]. split; [congruence|]. split.
    + rewrite Hpos', length_app. simpl. destruct Hstep as [-> | ->]; lia.
    + intros i ri Hi Hfar.
      destruct (decide (i < length (History.records h1))%nat) as [Hlt|Hge].
      * rewrite lookup_app_l in Hi by done. by apply (Hwins i).
      * rewrite lookup_app_r in Hi by lia.
        destruct (i - length (History.records h1))%nat eqn:Hi0; [|done].
        injection Hi as <-. rewrite Hout, Ha, Hb.
        destruct (Hfar (RandomWalkGame.position g2)) as [Hlo Hhi].
        { rewrite Hpos'. destruct Hstep as [-> | ->]; lia. }
        apply Qle_bool_iff in Hlo, Hhi. by rewrite Hlo, Hhi.
  - simpl. repeat split; try done; lia.
Qed.

Lemma random_walk_wide_band_witness :
  outcome (mk_record 1 10 110) = 1.
Proof.
  apply (random_walk_wide_band 1000 None 1
           (mk_fixed "Fixed Bet Strategy" (PyNum 10))
           (mk_fixed "Fixed Bet Strategy" (PyNum 10))
           (RandomWalkGame.init (-1) 1 (1 # 2) (fun _ => 0))
           (RandomWalkGame.mk (-1) 1 (1 # 2) 1 [1%Z] (fun _ => 0) 1)
           (History.mk [mk_record 1 10 110]) 100).
  - vm_compute. reflexivity.
  - intros z Hz. simpl in Hz.
    assert (Hcases : z = (-1)%Z \/ z = 0%Z \/ z = 1%Z) by lia.
    destruct Hcases as [-> | [-> | ->]]; split; discriminate.
  - simpl. apply list_elem_of_here.
Defined.
